(** * dataprep.eda.missing.computation: a verification development

    Shallow embedding of [src/dataprep/eda/missing/computation.py]
    (the calculating part of [plot_missing]) and the properties of its three
    analyzers and of the dispatcher.

    Conventions of the embedding.
    - A pandas [DataFrame] is a list of column labels and a list of labelled
      rows; [values] is its R x C cell array, [T] the transposed view.
    - Cells are Python scalars; [None] and [NaN] are the missing markers that
      [pd.isnull] recognises.
    - Python's true division of two ints is kept exact (a rational of [Q]);
      the float the interpreter returns is the double nearest to it.
    - Mutable Python objects that the code shares or updates in place (the
      caller's data frame, the frames it derives, the Python lists of column
      names) live in a heap and are handled by reference; numpy arrays are
      never written in place by this module and are handled by value.
    - Exceptions are an explicit outcome; the heap is threaded through. *)

From Stdlib Require Import String List ZArith QArith Bool Arith Lia.
Import ListNotations.

Close Scope Q_scope.
Set Implicit Arguments.

(* ================================================================== *)
(** * Python scalars, exceptions, heap                                  *)
(* ================================================================== *)

Inductive value : Type :=
| VInt (z : Z)
| VFloat (q : Q)
| VStr (s : string)
| VNone
| VNaN.

(** [pd.isnull] on one cell. *)
Definition isnull (v : value) : bool :=
  match v with
  | VNone | VNaN => true
  | _ => false
  end.

Definition notnull (v : value) : bool := negb (isnull v).

Definition loc := nat.

Inductive exn : Type :=
| KeyError (keys : list string)
| ValueError (msg : string)
| ZeroDivisionError
| AttributeError.

Inductive outcome (A : Type) : Type :=
| Ok (a : A)
| Raise (e : exn).

Arguments Ok {A} a.
Arguments Raise {A} e.

Definition omap {A B} (f : A -> B) (o : outcome A) : outcome B :=
  match o with
  | Ok a => Ok (f a)
  | Raise e => Raise e
  end.

Definition obind {A B} (o : outcome A) (f : A -> outcome B) : outcome B :=
  match o with
  | Ok a => f a
  | Raise e => Raise e
  end.

(* ================================================================== *)
(** * pandas: data frames                                               *)
(* ================================================================== *)

Record DataFrame : Type := mkDataFrame {
  columns : list string;
  rows : list (Z * list value)   (* index label, cells in column order *)
}.

Definition index (df : DataFrame) : list Z := map fst (rows df).

(** [Index.get_indexer_for [key]]: every position that carries the label. *)
Fixpoint locs_from (k : nat) (cols : list string) (key : string) : list nat :=
  match cols with
  | [] => []
  | c :: cs =>
      if String.eqb c key then k :: locs_from (S k) cs key
      else locs_from (S k) cs key
  end.

Definition get_locs (cols : list string) (key : string) : list nat :=
  locs_from 0 cols key.

Definition has_column (cols : list string) (key : string) : bool :=
  existsb (String.eqb key) cols.

(** The keys of a list-like that label no column. *)
Definition missing_keys (cols keys : list string) : list string :=
  filter (fun k => negb (has_column cols k)) keys.

(** [DataFrame.take(indices, axis=1)] on one row and on the labels. *)
Definition take_cells (idx : list nat) (cells : list value) : list value :=
  map (fun j => nth j cells VNone) idx.

Definition take_labels (idx : list nat) (cols : list string) : list string :=
  map (fun j => nth j cols EmptyString) idx.

Definition take (df : DataFrame) (idx : list nat) : DataFrame :=
  {| columns := take_labels idx (columns df);
     rows := map (fun r => (fst r, take_cells idx (snd r))) (rows df) |}.

(** [df[[k1, ..., kn]]]: KeyError when a key labels no column. *)
Definition getitem_list (df : DataFrame) (keys : list string)
  : outcome DataFrame :=
  match missing_keys (columns df) keys with
  | [] => Ok (take df (flat_map (get_locs (columns df)) keys))
  | ks => Raise (KeyError ks)
  end.

(** [df.dropna(subset=keys)] with the defaults [axis=0], [how="any"],
    [inplace=False]: a new frame with the rows whose cells under the subset
    labels are all present. *)
Definition row_complete (idx : list nat) (r : Z * list value) : bool :=
  forallb notnull (take_cells idx (snd r)).

Definition dropna (df : DataFrame) (subset : list string)
  : outcome DataFrame :=
  match missing_keys (columns df) subset with
  | [] =>
      let indices := flat_map (get_locs (columns df)) subset in
      Ok {| columns := columns df;
            rows := filter (row_complete indices) (rows df) |}
  | ks => Raise (KeyError ks)
  end.

(** What [df[name]] evaluates to: a Series when the label is unique, a frame
    when several columns carry it. *)
Inductive selection : Type :=
| Series (label : string) (cells : list (Z * value))
| SubFrame (df : DataFrame).

Definition getitem (df : DataFrame) (name : string) : outcome selection :=
  match get_locs (columns df) name with
  | [] => Raise (KeyError [name])
  | [j] => Ok (Series name
                 (map (fun r => (fst r, nth j (snd r) VNone)) (rows df)))
  | idx => Ok (SubFrame (take df idx))
  end.

(** [list.remove]: the first occurrence. *)
Fixpoint remove_first (x : string) (l : list string) : list string :=
  match l with
  | [] => []
  | c :: cs => if String.eqb c x then cs else c :: remove_first x cs
  end.

(* ================================================================== *)
(** * numpy: two-dimensional arrays                                     *)
(* ================================================================== *)

Record ndarray (A : Type) : Type := mkArray {
  shape : nat * nat;
  data : list (list A)
}.

(** [df.values]: shape (R, C). *)
Definition values (df : DataFrame) : ndarray value :=
  {| shape := (length (rows df), length (columns df));
     data := map snd (rows df) |}.

(** [a.T] *)
Definition T {A} (dflt : A) (a : ndarray A) : ndarray A :=
  {| shape := (snd (shape a), fst (shape a));
     data := map (fun j => map (fun line => nth j line dflt) (data a))
                 (seq 0 (snd (shape a))) |}.

(** Elementwise operations ([pd.isnull(a)], [a * 1]). *)
Definition amap {A B} (f : A -> B) (a : ndarray A) : ndarray B :=
  {| shape := shape a; data := map (map f) (data a) |}.

(** [a[i, :]] *)
Definition row_slice {A} (a : ndarray A) (i : nat) : list A :=
  nth i (data a) [].

Definition count_nonzero (l : list bool) : nat :=
  length (filter (fun b => b) l).

(** The stop of the Python slice [[:k]] on an axis of length [n]. *)
Definition slice_stop (k : option Z) (n : nat) : nat :=
  match k with
  | None => n
  | Some k =>
      if (k <? 0)%Z then Z.to_nat (Z.max 0 (k + Z.of_nat n))
      else Z.to_nat (Z.min k (Z.of_nat n))
  end.

(** [a[:k0, :k1]] ([None] is the full slice [:]). *)
Definition slice2 {A} (k0 k1 : option Z) (a : ndarray A) : ndarray A :=
  let n0 := slice_stop k0 (fst (shape a)) in
  let n1 := slice_stop k1 (snd (shape a)) in
  {| shape := (n0, n1); data := map (firstn n1) (firstn n0 (data a)) |}.

(* ================================================================== *)
(** * Heap of shared Python objects and the computation monad           *)
(* ================================================================== *)

Inductive obj : Type :=
| ODataFrame (df : DataFrame)
| OList (l : list string).

Definition heap := list obj.

Definition M (A : Type) : Type := heap -> outcome A * heap.

Definition ret {A} (a : A) : M A := fun h => (Ok a, h).

Definition raise {A} (e : exn) : M A := fun h => (Raise e, h).

Definition bind {A B} (m : M A) (k : A -> M B) : M B :=
  fun h =>
    match m h with
    | (Ok a, h') => k a h'
    | (Raise e, h') => (Raise e, h')
    end.

Notation "x <- m ;; k" := (bind m (fun x => k))
  (at level 61, m at next level, right associativity).
Notation "m ;;; k" := (bind m (fun _ => k))
  (at level 61, right associativity).

Definition lift {A} (o : outcome A) : M A := fun h => (o, h).

Definition alloc (o : obj) : M loc := fun h => (Ok (length h), h ++ [o]).

Fixpoint update (h : heap) (l : loc) (o : obj) : heap :=
  match h, l with
  | [], _ => []
  | _ :: h', O => o :: h'
  | x :: h', S l' => x :: update h' l' o
  end.

Definition load_frame (l : loc) : M DataFrame :=
  fun h =>
    match nth_error h l with
    | Some (ODataFrame df) => (Ok df, h)
    | _ => (Raise AttributeError, h)
    end.

Definition load_list (l : loc) : M (list string) :=
  fun h =>
    match nth_error h l with
    | Some (OList names) => (Ok names, h)
    | _ => (Raise AttributeError, h)
    end.

(** [names.remove(x)] on the list object at [l], in place. *)
Definition list_remove (l : loc) (x : string) : M unit :=
  names <- load_list l ;;
  if has_column names x
  then fun h => (Ok tt, update h l (OList (remove_first x names)))
  else raise (ValueError "list.remove(x): x not in list").

(** Python values stored in the dictionaries of an intermediate result. *)
Inductive pyval : Type :=
| PRef (l : loc)
| PStr (s : string)
| PInt (z : Z)
| PFloat (q : Q)
| PTuple (t : list Q)
| PArray (a : ndarray Z).

Definition dict := list (string * pyval).

Fixpoint dict_get (d : dict) (k : string) : option pyval :=
  match d with
  | [] => None
  | (k', v) :: d' => if String.eqb k' k then Some v else dict_get d' k
  end.

(** Modelled from the spec: the class [Intermediate] of [dataprep.eda.common]
    is not part of the sources at hand; the spec describes it as a container
    with three fields (payload, source, kind) and no behaviour, and the
    module builds it with the keywords [result], [raw_data], [visual_type]. *)
Record Intermediate : Type := mkIntermediate {
  result : dict;
  raw_data : dict;
  visual_type : string
}.

(* ================================================================== *)
(** * dask: delayed tasks                                               *)
(* ================================================================== *)

(** A delayed call is a suspended computation; [dask.compute( *tasks )] runs
    every task and gathers the results in the order of its arguments, whatever
    the schedule; here the tasks are run in that order. *)
Definition delayed (A : Type) : Type := unit -> outcome A.

Definition dask_delayed {A B C} (f : A -> B -> outcome C) (a : A) (b : B)
  : delayed C := fun _ => f a b.

Fixpoint dask_compute {A} (tasks : list (delayed A)) : outcome (list A) :=
  match tasks with
  | [] => Ok []
  | t :: ts =>
      obind (t tt) (fun a => omap (cons a) (dask_compute ts))
  end.

(* ================================================================== *)
(** * Methods on heap-allocated objects                                 *)
(* ================================================================== *)

(** [frame.dropna(subset=keys)]: a new frame object. *)
Definition frame_dropna (frame : loc) (subset : list string) : M loc :=
  df <- load_frame frame ;;
  dropped <- lift (dropna df subset) ;;
  alloc (ODataFrame dropped).

(** [frame[[k1, ..., kn]]]: a new frame object. *)
Definition frame_getitem_list (frame : loc) (keys : list string) : M loc :=
  df <- load_frame frame ;;
  sel <- lift (getitem_list df keys) ;;
  alloc (ODataFrame sel).

(** [frame[name]]: a temporary handed to the classifier only. *)
Definition frame_getitem (frame : loc) (name : string) : M selection :=
  df <- load_frame frame ;;
  lift (getitem df name).

(** [list(frame.columns)]: a new list object. *)
Definition list_of_columns (frame : loc) : M loc :=
  df <- load_frame frame ;;
  alloc (OList (columns df)).

(** [frame.values.T] under [pd.isnull]: a new boolean array, shape (C, R). *)
Definition isnull_values_T (frame : loc) : M (ndarray bool) :=
  df <- load_frame frame ;;
  ret (amap isnull (T VNone (values df))).

(* ================================================================== *)
(** * dataprep/eda/missing/computation.py                               *)
(* ================================================================== *)

(** [np.count_nonzero(data) / length]: true division of two Python ints,
    which raises on a zero divisor. *)
Definition _calc_nonzero_rate (data : list bool) (len : nat) : outcome Q :=
  match len with
  | O => Raise ZeroDivisionError
  | S _ => Ok (Z.of_nat (count_nonzero data) # Pos.of_nat len)%Q
  end.

Definition _calc_nonzero_count
  (pd_data_frame : loc) (num_rows num_cols : option Z) : M Intermediate :=
  pd_data_frame_value <- isnull_values_T pd_data_frame ;;
  let count_nonzero_list : list (delayed Q) := [] in
  let '(row, col) := shape pd_data_frame_value in
  let count_nonzero_list :=
    fold_left
      (fun acc i =>
         acc ++ [dask_delayed _calc_nonzero_rate
                   (row_slice pd_data_frame_value i) col])
      (seq 0 row) count_nonzero_list in
  count_nonzero_compute <- lift (dask_compute count_nonzero_list) ;;
  let pd_data_frame_value := amap Z.b2z pd_data_frame_value in
  let pd_data_frame_value :=
    match num_rows, num_cols with
    | Some _, Some _ => slice2 num_cols num_rows pd_data_frame_value
    | None, Some _ => slice2 num_cols None pd_data_frame_value
    | Some _, None => slice2 None num_rows pd_data_frame_value
    | None, None => pd_data_frame_value
    end in
  let result := [("distribution"%string, PArray pd_data_frame_value);
                 ("count"%string, PTuple count_nonzero_compute)] in
  let raw_data := [("df"%string, PRef pd_data_frame)] in
  ret (mkIntermediate result raw_data "dummy").

(** The value of the keyword [num_bins] when a caller leaves it out. *)
Definition num_bins_default : Z := 10.

Definition _calc_missing_impact
  (pd_data_frame : loc) (x_name : string) (num_bins : Z) : M Intermediate :=
  df_data_drop <- frame_dropna pd_data_frame [x_name] ;;
  columns_name <- list_of_columns pd_data_frame ;;
  list_remove columns_name x_name ;;;
  let result := [("df_data_drop"%string, PRef df_data_drop);
                 ("columns_name"%string, PRef columns_name)] in
  let raw_data := [("df"%string, PRef pd_data_frame);
                   ("x_name"%string, PStr x_name);
                   ("num_bins"%string, PInt num_bins)] in
  ret (mkIntermediate result raw_data "dummy").

Definition _calc_missing_impact_y
  (pd_data_frame : loc) (x_name y_name : string) (num_bins : Z)
  : M Intermediate :=
  df_data_sel <- frame_getitem_list pd_data_frame [x_name; y_name] ;;
  df_data_drop <- frame_dropna df_data_sel [x_name] ;;
  columns_name <- list_of_columns df_data_drop ;;
  let result := [("df_data_drop"%string, PRef df_data_drop);
                 ("columns_name"%string, PRef columns_name)] in
  let raw_data := [("df"%string, PRef pd_data_frame);
                   ("x_name"%string, PStr x_name);
                   ("y_name"%string, PStr y_name);
                   ("num_bins"%string, PInt num_bins)] in
  ret (mkIntermediate result raw_data "dummy").

(** Modelled from the spec: the enumeration [DataType] of [dataprep.utils] is
    not part of the sources at hand.  The module compares against its members
    [TYPE_NUM] and [TYPE_CAT] (the spec's NUMERIC and CATEGORICAL); every
    other tag a classifier may answer is [TYPE_OTHER]. *)
Inductive DataType : Type :=
| TYPE_NUM
| TYPE_CAT
| TYPE_OTHER (tag : nat).

Definition DataType_neq (a b : DataType) : bool :=
  match a, b with
  | TYPE_NUM, TYPE_NUM => false
  | TYPE_CAT, TYPE_CAT => false
  | TYPE_OTHER m, TYPE_OTHER n => negb (Nat.eqb m n)
  | _, _ => true
  end.

(** The two [ValueError]s of the dispatcher and the [KeyError] of pandas,
    under the names the specification gives them. *)
Definition UnsupportedColumnType : exn :=
  ValueError "the column's data type is error".

Definition InvalidArguments : exn :=
  ValueError "Please give a value to x_name".

Definition ColumnNotFound (e : exn) : Prop := exists keys, e = KeyError keys.

(** What [plot_missing] returns: the figure, or the figure and the
    intermediate result. *)
Inductive returned (Figure : Type) : Type :=
| RFigure (fig : Figure)
| RPair (fig : Figure) (intermediate : Intermediate).

Arguments RFigure {Figure} fig.
Arguments RPair {Figure} fig intermediate.

Section Dispatcher.

(** The collaborators imported from [dataprep.utils], from
    [.visualization] and from bokeh: the column classifier, the three
    rendering routines and [show]. *)
Variable Figure : Type.
Variable get_type : selection -> DataType.
Variable _vis_nonzero_count : Intermediate -> dict -> M Figure.
Variable _vis_missing_impact : Intermediate -> dict -> M Figure.
Variable _vis_missing_impact_y : Intermediate -> dict -> M Figure.
Variable show : Figure -> M unit.

(** The condition of the [if] in the loop; [and] evaluates its second
    operand only when the first holds. *)
Definition unsupported (pd_data_frame : loc) (name : string) : M bool :=
  column <- frame_getitem pd_data_frame name ;;
  if DataType_neq (get_type column) TYPE_NUM
  then
    column <- frame_getitem pd_data_frame name ;;
    ret (DataType_neq (get_type column) TYPE_CAT)
  else ret false.

(** [for name in columns_name: if ...: raise ValueError(...)] *)
Fixpoint check_columns (pd_data_frame : loc) (names : list string)
  : M unit :=
  match names with
  | [] => ret tt
  | name :: names' =>
      bad <- unsupported pd_data_frame name ;;
      if bad then raise UnsupportedColumnType
      else check_columns pd_data_frame names'
  end.

Definition plot_missing
  (pd_data_frame : loc) (x_name y_name : option string)
  (num_rows num_cols : option Z) (return_intermediate : bool)
  : M (returned Figure) :=
  columns_name <- list_of_columns pd_data_frame ;;
  let params := [("height"%string, PInt 375); ("width"%string, PInt 325);
                 ("alpha"%string, PFloat (3 # 10)%Q);
                 ("legend_position"%string, PStr "top")] in
  names <- load_list columns_name ;;
  check_columns pd_data_frame names ;;;
  drawn <-
    match x_name, y_name with
    | Some x, Some y =>
        intermediate <- _calc_missing_impact_y pd_data_frame x y
                          num_bins_default ;;
        fig <- _vis_missing_impact_y intermediate params ;;
        ret (fig, intermediate)
    | Some x, None =>
        intermediate <- _calc_missing_impact pd_data_frame x
                          num_bins_default ;;
        fig <- _vis_missing_impact intermediate params ;;
        ret (fig, intermediate)
    | None, Some _ => raise InvalidArguments
    | None, None =>
        intermediate <- _calc_nonzero_count pd_data_frame
                          num_rows num_cols ;;
        fig <- _vis_nonzero_count intermediate params ;;
        ret (fig, intermediate)
    end ;;
  let '(fig, intermediate) := drawn in
  show fig ;;;
  if return_intermediate then ret (RPair fig intermediate)
  else ret (RFigure fig).

End Dispatcher.

(* ================================================================== *)
(** * Reading results; vocabulary of the properties                     *)
(* ================================================================== *)

Definition count_of (im : Intermediate) : option (list Q) :=
  match dict_get (result im) "count" with
  | Some (PTuple t) => Some t
  | _ => None
  end.

Definition distribution_of (im : Intermediate) : option (ndarray Z) :=
  match dict_get (result im) "distribution" with
  | Some (PArray a) => Some a
  | _ => None
  end.

Definition ref_of (d : dict) (k : string) : option loc :=
  match dict_get d k with
  | Some (PRef l) => Some l
  | _ => None
  end.

Definition frame_at (h : heap) (l : loc) : option DataFrame :=
  match nth_error h l with
  | Some (ODataFrame df) => Some df
  | _ => None
  end.

Definition list_at (h : heap) (l : loc) : option (list string) :=
  match nth_error h l with
  | Some (OList names) => Some names
  | _ => None
  end.

(** The payload of the two impact analyzers: references to the filtered
    frame and to the list of column names. *)
Definition impact_result (frame names : loc) : dict :=
  [("df_data_drop"%string, PRef frame); ("columns_name"%string, PRef names)].

(** The heap [h'] keeps every object of [h] as it was. *)
Definition extends (h h' : heap) : Prop := exists ext, h' = h ++ ext.

(** A collaborator that leaves the objects it is given untouched. *)
Definition read_only {A B C} (f : A -> B -> M C) : Prop :=
  forall a b h, extends h (snd (f a b h)).

(** Number of rows in which column number [c] is missing. *)
Definition missing_in_column (df : DataFrame) (c : nat) : nat :=
  length (filter (fun r => isnull (nth c (snd r) VNone)) (rows df)).

(** The cell of a row under a column label (first column of that label). *)
Definition lookup_cell (df : DataFrame) (r : Z * list value) (name : string)
  : option value :=
  match get_locs (columns df) name with
  | j :: _ => nth_error (snd r) j
  | [] => None
  end.

Definition cell (df : DataFrame) (r : Z * list value) (name : string)
  : value :=
  match lookup_cell df r name with
  | Some v => v
  | None => VNone
  end.

(** The row has a present (non-missing) value under the label. *)
Definition present_inb (df : DataFrame) (name : string)
  (r : Z * list value) : bool :=
  match lookup_cell df r name with
  | Some v => notnull v
  | None => false
  end.

Definition present_in (df : DataFrame) (name : string) (r : Z * list value)
  : Prop :=
  present_inb df name r = true.

(** The rows of a frame in which column [x] is present. *)
Definition rows_present (df : DataFrame) (x : string) : list (Z * list value) :=
  filter (row_complete (get_locs (columns df) x)) (rows df).

(** The per-row density in the words of the specification: for each row, one
    minus the fraction of the columns that are missing in that row.  It is
    the quantity the source's [count] is compared with. *)
Definition spec_row_density (df : DataFrame) (r : Z * list value) : Q :=
  (1 - (Z.of_nat (length (filter isnull (snd r)))
        # Pos.of_nat (length (columns df))))%Q.

Definition spec_densities (df : DataFrame) : list Q :=
  map (spec_row_density df) (rows df).

(** The type of a column as the dispatcher sees it. *)
Definition classified (get_type : selection -> DataType)
  (df : DataFrame) (name : string) : option DataType :=
  match getitem df name with
  | Ok column => Some (get_type column)
  | Raise _ => None
  end.

Definition supported (t : option DataType) : Prop :=
  t = Some TYPE_NUM \/ t = Some TYPE_CAT.

(** The boolean matrix of shape (C, R) the global analyzer starts from:
    entry (c, r) tells whether column c is missing at row r. *)
Definition presence (df : DataFrame) : ndarray bool :=
  amap isnull (T VNone (values df)).

(** The rate of missing rows of each column, in column order. *)
Definition column_missing_rates (df : DataFrame) : list Q :=
  map (fun c => (Z.of_nat (missing_in_column df c)
                 # Pos.of_nat (length (rows df)))%Q)
      (seq 0 (length (columns df))).

(** What a run of the global analyzer puts under [distribution] (the rows of
    the array) and under [count]. *)
Definition matrix_of (run : outcome Intermediate * heap)
  : outcome (option (list (list Z))) :=
  omap (fun im => option_map (@data Z) (distribution_of im)) (fst run).

Definition rates_of (run : outcome Intermediate * heap)
  : outcome (option (list Q)) :=
  omap count_of (fst run).

(** The test of the dispatcher's loop on one column, read off the frame. *)
Definition unsupported_column (get_type : selection -> DataType)
  (df : DataFrame) (name : string) : bool :=
  match getitem df name with
  | Ok column => DataType_neq (get_type column) TYPE_NUM
                 && DataType_neq (get_type column) TYPE_CAT
  | Raise _ => false
  end.

(** A computation that leaves every object it finds on the heap as it was,
    whether it returns or raises. *)
Definition preserving {A} (m : M A) : Prop :=
  forall h, extends h (snd (m h)).

(** The sum of one line of a 0/1 matrix. *)
Definition line_sum (line : list Z) : Z := fold_right Z.add 0%Z line.

(** A cap that reaches the end of an axis of length [n] (or no cap). *)
Definition cap_covers (cap : option Z) (n : nat) : Prop :=
  match cap with
  | None => True
  | Some k => (Z.of_nat n <= k)%Z
  end.

(** The figure and the intermediate result in what [plot_missing] returns. *)
Definition figure_of {Figure} (r : returned Figure) : Figure :=
  match r with
  | RFigure fig => fig
  | RPair fig _ => fig
  end.

Definition intermediate_of {Figure} (r : returned Figure)
  : option Intermediate :=
  match r with
  | RFigure _ => None
  | RPair _ im => Some im
  end.

(** The dispatch table of [plot_missing], read as a function: the analyzer
    call that belongs to each shape of [(x_name, y_name)]. *)
Definition selected_analyzer (pd_data_frame : loc)
  (x_name y_name : option string) (num_rows num_cols : option Z)
  : option (M Intermediate) :=
  match x_name, y_name with
  | Some x, Some y =>
      Some (_calc_missing_impact_y pd_data_frame x y num_bins_default)
  | Some x, None =>
      Some (_calc_missing_impact pd_data_frame x num_bins_default)
  | None, Some _ => None
  | None, None => Some (_calc_nonzero_count pd_data_frame num_rows num_cols)
  end.

(** A table in which the label A is carried by two columns. *)
Definition table_AAB : DataFrame :=
  {| columns := ["A"%string; "A"%string; "B"%string];
     rows := [(0%Z, [VInt 1; VNone; VInt 5]);
              (1%Z, [VInt 2; VInt 2; VNone])] |}.

(** A table with the missing cells of [table_AB] under other labels and
    other values. *)
Definition table_uv : DataFrame :=
  {| columns := ["u"%string; "v"%string];
     rows := [(7%Z, [VStr "a"; VNaN]);
              (8%Z, [VNaN; VStr "b"]);
              (9%Z, [VFloat (1 # 2); VInt 0])] |}.

(** A table whose column A has no missing cell and whose column B has only
    missing cells. *)
Definition table_full_void : DataFrame :=
  {| columns := ["A"%string; "B"%string];
     rows := [(0%Z, [VInt 1; VNone]); (1%Z, [VInt 2; VNaN])] |}.

(** ** Sample inputs *)

(** The table of the specification's scenario: A = [1, None, 3],
    B = [None, 2, 3]. *)
Definition table_AB : DataFrame :=
  {| columns := ["A"%string; "B"%string];
     rows := [(0%Z, [VInt 1; VNone]);
              (1%Z, [VNone; VInt 2]);
              (2%Z, [VInt 3; VInt 3])] |}.

(** A table with the column A and no row. *)
Definition table_A_empty : DataFrame :=
  {| columns := ["A"%string]; rows := [] |}.

(** A table with two rows and no column. *)
Definition table_no_columns : DataFrame :=
  {| columns := []; rows := [(0%Z, []); (1%Z, [])] |}.

(** A classifier: a column of numbers is numeric, a column of strings is
    categorical, a column that mixes both (or a selection of several
    columns) is neither. *)
Definition is_number (v : value) : bool :=
  match v with
  | VInt _ | VFloat _ | VNone | VNaN => true
  | VStr _ => false
  end.

Definition is_text (v : value) : bool :=
  match v with
  | VStr _ | VNone | VNaN => true
  | _ => false
  end.

Definition sample_get_type (s : selection) : DataType :=
  match s with
  | Series _ cells =>
      if forallb is_number (map snd cells) then TYPE_NUM
      else if forallb is_text (map snd cells) then TYPE_CAT
      else TYPE_OTHER 0
  | SubFrame _ => TYPE_OTHER 1
  end.

(** A table whose column M mixes numbers and strings. *)
Definition table_mixed : DataFrame :=
  {| columns := ["A"%string; "M"%string];
     rows := [(0%Z, [VInt 1; VInt 7]);
              (1%Z, [VNone; VStr "seven"])] |}.

(** Rendering routines that draw nothing and a [show] that displays
    nothing. *)
Definition sample_vis (im : Intermediate) (params : dict) : M unit := ret tt.

Definition sample_show (fig : unit) : M unit := ret tt.

Definition sample_plot_missing :=
  plot_missing sample_get_type sample_vis sample_vis sample_vis sample_show.

(* ================================================================== *)
(** * Facts about labels and positions                                  *)
(* ================================================================== *)

Unset Implicit Arguments.

Lemma has_column_In (cols : list string) (key : string) :
  has_column cols key = true <-> In key cols.
Proof.
  unfold has_column. rewrite existsb_exists. split.
  - intros [c [Hin Heq]]. apply String.eqb_eq in Heq. now subst.
  - intros Hin. exists key. split; [assumption | apply String.eqb_refl].
Qed.

Lemma has_column_not_In (cols : list string) (key : string) :
  has_column cols key = false <-> ~ In key cols.
Proof.
  rewrite <- has_column_In. destruct (has_column cols key); split;
    intros H; try discriminate; try reflexivity; try congruence;
    exfalso; now apply H.
Qed.

Lemma missing_keys_nil (cols keys : list string) :
  missing_keys cols keys = [] <-> Forall (fun k => In k cols) keys.
Proof.
  unfold missing_keys. induction keys as [|k keys IH]; simpl.
  - split; auto.
  - destruct (has_column cols k) eqn:E; simpl.
    + rewrite IH. apply has_column_In in E. split.
      * intros H. now constructor.
      * intros H. now inversion H.
    + apply has_column_not_In in E. split; [discriminate|].
      intros H. inversion H. contradiction.
Qed.

Lemma locs_from_not_In (k : nat) (cols : list string) (key : string) :
  ~ In key cols -> locs_from k cols key = [].
Proof.
  revert k. induction cols as [|c cs IH]; intros k Hn; simpl; auto.
  destruct (String.eqb c key) eqn:E.
  - apply String.eqb_eq in E. subst. exfalso. apply Hn. now left.
  - apply IH. intros H. apply Hn. now right.
Qed.

Lemma locs_from_shift (k : nat) (cols : list string) (key : string) :
  locs_from k cols key = map (Nat.add k) (locs_from 0 cols key).
Proof.
  revert k. induction cols as [|c cs IH]; intros k; simpl; auto.
  assert (Hs : locs_from (S k) cs key
               = map (Nat.add k) (locs_from 1 cs key)).
  { rewrite (IH (S k)), (IH 1), map_map.
    apply map_ext. intros. lia. }
  destruct (String.eqb c key); simpl; rewrite Hs, ?Nat.add_0_r; reflexivity.
Qed.

(** With unique labels, a label of the frame sits at exactly one position. *)
Lemma get_locs_unique (cols : list string) (key : string) :
  NoDup cols -> In key cols ->
  exists j, get_locs cols key = [j] /\ nth_error cols j = Some key.
Proof.
  unfold get_locs. induction cols as [|c cs IH]; intros Hnd Hin.
  - destruct Hin.
  - inversion Hnd as [|? ? Hnotin Hnd']; subst. simpl.
    destruct (String.eqb c key) eqn:E.
    + apply String.eqb_eq in E. subst c.
      exists 0. simpl. rewrite (locs_from_not_In 1 cs key Hnotin). auto.
    + apply String.eqb_neq in E.
      destruct Hin as [Heq | Hin]; [congruence|].
      destruct (IH Hnd' Hin) as [j [Hj Hnth]].
      exists (S j). rewrite locs_from_shift, Hj. simpl. auto.
Qed.

Lemma get_locs_In (cols : list string) (key : string) :
  In key cols -> get_locs cols key <> [].
Proof.
  unfold get_locs. generalize 0.
  induction cols as [|c cs IH]; intros k Hin; simpl.
  - destruct Hin.
  - destruct (String.eqb c key) eqn:E; [discriminate|].
    apply String.eqb_neq in E. destruct Hin as [Heq | Hin]; [congruence|].
    now apply IH.
Qed.

Lemma remove_first_filter (x : string) (cols : list string) :
  NoDup cols ->
  remove_first x cols = filter (fun c => negb (String.eqb c x)) cols.
Proof.
  induction cols as [|c cs IH]; intros Hnd; simpl; auto.
  inversion Hnd as [|? ? Hnotin Hnd']; subst.
  destruct (String.eqb c x) eqn:E; simpl.
  - apply String.eqb_eq in E. subst c.
    symmetry. apply forallb_filter_id. apply forallb_forall.
    intros c Hc. apply negb_true_iff, String.eqb_neq. congruence.
  - now rewrite IH.
Qed.

Lemma remove_first_length (x : string) (cols : list string) :
  In x cols -> length (remove_first x cols) = length cols - 1.
Proof.
  induction cols as [|c cs IH]; intros Hin; simpl.
  - destruct Hin.
  - destruct (String.eqb c x) eqn:E; simpl; [lia|].
    apply String.eqb_neq in E. destruct Hin as [Heq | Hin]; [congruence|].
    rewrite (IH Hin). destruct cs; [destruct Hin | simpl; lia].
Qed.

(* ================================================================== *)
(** * Facts about the heap                                              *)
(* ================================================================== *)

Lemma extends_refl (h : heap) : extends h h.
Proof. exists []. now rewrite app_nil_r. Qed.

Lemma extends_trans (h1 h2 h3 : heap) :
  extends h1 h2 -> extends h2 h3 -> extends h1 h3.
Proof.
  intros [e1 ->] [e2 ->]. exists (e1 ++ e2). now rewrite app_assoc.
Qed.

Lemma extends_app (h ext : heap) : extends h (h ++ ext).
Proof. now exists ext. Qed.

Lemma extends_nth_error (h h' : heap) (l : loc) (o : obj) :
  extends h h' -> nth_error h l = Some o -> nth_error h' l = Some o.
Proof.
  intros [ext ->] H. rewrite nth_error_app1; [assumption|].
  apply nth_error_Some. congruence.
Qed.

Lemma nth_error_fresh (h ext : heap) (o : obj) :
  nth_error (h ++ o :: ext) (length h) = Some o.
Proof.
  rewrite nth_error_app2 by lia. now rewrite Nat.sub_diag.
Qed.

Lemma update_fresh (h ext : heap) (o o' : obj) :
  update (h ++ o :: ext) (length h) o' = h ++ o' :: ext.
Proof.
  induction h as [|x h IH]; simpl; [reflexivity | now rewrite IH].
Qed.

(* ================================================================== *)
(** * How the methods run on a heap that holds the table                *)
(* ================================================================== *)

Section Runs.

Variables (h : heap) (p : loc) (df : DataFrame).
Hypothesis Hp : nth_error h p = Some (ODataFrame df).

Lemma load_frame_run : load_frame p h = (Ok df, h).
Proof. unfold load_frame. now rewrite Hp. Qed.

Lemma frame_dropna_run (subset : list string) :
  frame_dropna p subset h =
  match dropna df subset with
  | Ok d => (Ok (length h), h ++ [ODataFrame d])
  | Raise e => (Raise e, h)
  end.
Proof.
  unfold frame_dropna, bind. rewrite load_frame_run. unfold lift, alloc.
  now destruct (dropna df subset).
Qed.

Lemma frame_getitem_list_run (keys : list string) :
  frame_getitem_list p keys h =
  match getitem_list df keys with
  | Ok d => (Ok (length h), h ++ [ODataFrame d])
  | Raise e => (Raise e, h)
  end.
Proof.
  unfold frame_getitem_list, bind. rewrite load_frame_run.
  unfold lift, alloc. now destruct (getitem_list df keys).
Qed.

Lemma frame_getitem_run (name : string) :
  frame_getitem p name h = (getitem df name, h).
Proof.
  unfold frame_getitem, bind. rewrite load_frame_run. unfold lift.
  now destruct (getitem df name).
Qed.

Lemma list_of_columns_run :
  list_of_columns p h = (Ok (length h), h ++ [OList (columns df)]).
Proof. unfold list_of_columns, bind. now rewrite load_frame_run. Qed.

Lemma isnull_values_T_run :
  isnull_values_T p h = (Ok (amap isnull (T VNone (values df))), h).
Proof. unfold isnull_values_T, bind. now rewrite load_frame_run. Qed.

End Runs.

Lemma load_frame_fails (h : heap) (p : loc) :
  frame_at h p = None -> load_frame p h = (Raise AttributeError, h).
Proof.
  unfold frame_at, load_frame.
  destruct (nth_error h p) as [[d|l]|]; intros H; try discriminate; auto.
Qed.

Lemma frame_at_cases (h : heap) (p : loc) :
  (exists df, nth_error h p = Some (ODataFrame df)) \/ frame_at h p = None.
Proof.
  unfold frame_at. destruct (nth_error h p) as [[d|l]|]; eauto.
Qed.

Lemma list_remove_fresh (h ext : heap) (names : list string) (x : string) :
  has_column names x = true ->
  list_remove (length h) x (h ++ OList names :: ext)
  = (Ok tt, h ++ OList (remove_first x names) :: ext).
Proof.
  intros Hx. unfold list_remove, bind, load_list.
  rewrite nth_error_fresh, Hx. now rewrite update_fresh.
Qed.

Lemma dropna_ok_iff (df : DataFrame) (x : string) :
  In x (columns df) ->
  dropna df [x] = Ok {| columns := columns df; rows := rows_present df x |}.
Proof.
  intros Hin. unfold dropna, rows_present.
  assert (E : missing_keys (columns df) [x] = []).
  { apply missing_keys_nil. constructor; auto. }
  rewrite E. simpl. now rewrite app_nil_r.
Qed.

Lemma dropna_absent (df : DataFrame) (x : string) :
  ~ In x (columns df) -> dropna df [x] = Raise (KeyError [x]).
Proof.
  intros Hn. unfold dropna, missing_keys. simpl.
  apply has_column_not_In in Hn. now rewrite Hn.
Qed.

(** ** The single-column analyzer, run *)

Lemma calc_missing_impact_run
  (h : heap) (p : loc) (df : DataFrame) (x : string) (num_bins : Z) :
  nth_error h p = Some (ODataFrame df) ->
  In x (columns df) ->
  _calc_missing_impact p x num_bins h =
  (Ok {| result := impact_result (length h) (S (length h));
         raw_data := [("df"%string, PRef p); ("x_name"%string, PStr x);
                      ("num_bins"%string, PInt num_bins)];
         visual_type := "dummy" |},
   h ++ [ODataFrame {| columns := columns df; rows := rows_present df x |};
         OList (remove_first x (columns df))]).
Proof.
  intros Hp Hin. unfold _calc_missing_impact.
  unfold bind at 1. rewrite (frame_dropna_run h p df Hp), dropna_ok_iff by auto.
  unfold bind at 1.
  rewrite (list_of_columns_run _ p df)
    by (eapply extends_nth_error; [apply extends_app | exact Hp]).
  unfold bind at 1. rewrite length_app. simpl length.
  replace (length h + 1) with (length (h ++ [ODataFrame
     {| columns := columns df; rows := rows_present df x |}]))
    by (rewrite length_app; reflexivity).
  rewrite list_remove_fresh by (now apply has_column_In).
  unfold ret. rewrite !length_app. simpl length.
  rewrite Nat.add_1_r, <- app_assoc. reflexivity.
Qed.

Lemma calc_missing_impact_absent
  (h : heap) (p : loc) (df : DataFrame) (x : string) (num_bins : Z) :
  nth_error h p = Some (ODataFrame df) ->
  ~ In x (columns df) ->
  _calc_missing_impact p x num_bins h = (Raise (KeyError [x]), h).
Proof.
  intros Hp Hn. unfold _calc_missing_impact.
  unfold bind at 1. rewrite (frame_dropna_run h p df Hp), dropna_absent by auto.
  reflexivity.
Qed.

(** ** The two-column analyzer, run *)

Lemma calc_missing_impact_y_run
  (h : heap) (p : loc) (df : DataFrame) (x y : string) (num_bins : Z) :
  nth_error h p = Some (ODataFrame df) ->
  _calc_missing_impact_y p x y num_bins h =
  match getitem_list df [x; y] with
  | Raise e => (Raise e, h)
  | Ok sel =>
      match dropna sel [x] with
      | Raise e => (Raise e, h ++ [ODataFrame sel])
      | Ok d =>
          (Ok {| result := impact_result (S (length h)) (S (S (length h)));
                 raw_data := [("df"%string, PRef p);
                              ("x_name"%string, PStr x);
                              ("y_name"%string, PStr y);
                              ("num_bins"%string, PInt num_bins)];
                 visual_type := "dummy" |},
           h ++ [ODataFrame sel; ODataFrame d; OList (columns d)])
      end
  end.
Proof.
  intros Hp. unfold _calc_missing_impact_y.
  unfold bind at 1. rewrite (frame_getitem_list_run h p df Hp).
  destruct (getitem_list df [x; y]) as [sel|e]; [|reflexivity].
  unfold bind at 1.
  rewrite (frame_dropna_run _ (length h) sel) by apply nth_error_fresh.
  destruct (dropna sel [x]) as [d|e]; [|reflexivity].
  unfold bind at 1.
  replace (length (h ++ [ODataFrame sel])) with (length h + 1)
    by (rewrite length_app; reflexivity).
  replace ((h ++ [ODataFrame sel]) ++ [ODataFrame d])
    with ((h ++ [ODataFrame sel]) ++ ODataFrame d :: []) by reflexivity.
  rewrite (list_of_columns_run _ (length h + 1) d)
    by (replace (length h + 1) with (length (h ++ [ODataFrame sel]))
          by (rewrite length_app; reflexivity);
        apply nth_error_fresh).
  unfold ret. rewrite !length_app. simpl length.
  rewrite !Nat.add_1_r, <- !app_assoc. reflexivity.
Qed.

(** Narrowing to two distinct, uniquely labelled columns. *)
Lemma getitem_list_pair (df : DataFrame) (x y : string) :
  NoDup (columns df) -> In x (columns df) -> In y (columns df) ->
  exists jx jy,
    get_locs (columns df) x = [jx] /\ nth_error (columns df) jx = Some x /\
    get_locs (columns df) y = [jy] /\ nth_error (columns df) jy = Some y /\
    getitem_list df [x; y] =
    Ok {| columns := [x; y];
          rows := map (fun r => (fst r, [nth jx (snd r) VNone;
                                         nth jy (snd r) VNone]))
                      (rows df) |}.
Proof.
  intros Hnd Hx Hy.
  destruct (get_locs_unique (columns df) x Hnd Hx) as [jx [Ejx Hjx]].
  destruct (get_locs_unique (columns df) y Hnd Hy) as [jy [Ejy Hjy]].
  exists jx, jy. repeat (split; [assumption|]).
  unfold getitem_list.
  assert (E : missing_keys (columns df) [x; y] = []).
  { apply missing_keys_nil. repeat constructor; auto. }
  rewrite E. simpl. rewrite Ejx, Ejy. simpl.
  unfold take, take_labels, take_cells. simpl.
  now rewrite (nth_error_nth _ _ _ Hjx), (nth_error_nth _ _ _ Hjy).
Qed.

Lemma get_locs_head (x y : string) :
  x <> y -> get_locs [x; y] x = [0].
Proof.
  intros Hxy. unfold get_locs. simpl. rewrite String.eqb_refl.
  apply String.eqb_neq in Hxy. rewrite String.eqb_sym in Hxy.
  now rewrite Hxy.
Qed.

Lemma row_complete_present (df : DataFrame) (x : string) (j : nat)
  (r : Z * list value) :
  get_locs (columns df) x = [j] ->
  row_complete [j] r = present_inb df x r /\
  nth j (snd r) VNone = cell df r x.
Proof.
  intros Ej. unfold row_complete, present_inb, cell, lookup_cell.
  rewrite Ej. simpl. rewrite andb_true_r.
  destruct (nth_error (snd r) j) as [v|] eqn:E.
  - now rewrite (nth_error_nth _ _ _ E).
  - apply nth_error_None in E. now rewrite nth_overflow.
Qed.

Lemma rows_present_filter (df : DataFrame) (x : string) :
  NoDup (columns df) -> In x (columns df) ->
  rows_present df x = filter (present_inb df x) (rows df).
Proof.
  intros Hnd Hin. unfold rows_present.
  destruct (get_locs_unique _ _ Hnd Hin) as [j [Ej _]]. rewrite Ej.
  apply filter_ext. intros r. now apply row_complete_present.
Qed.

Lemma filter_map_comm {A B} (f : B -> bool) (g : A -> B) (l : list A) :
  filter f (map g l) = map g (filter (fun a => f (g a)) l).
Proof.
  induction l as [|a l IH]; simpl; auto.
  destruct (f (g a)); simpl; now rewrite IH.
Qed.

(* ================================================================== *)
(** * The single-column impact analyzer                                 *)
(* ================================================================== *)

(** The scenario of the specification: with x = A the rows labelled 0 and 2
    are retained and the remaining column list is [B]. *)
Example single_column_impact_scenario :
  let h' := snd (_calc_missing_impact 0 "A" num_bins_default
                   [ODataFrame table_AB]) in
  h' = [ODataFrame table_AB;
        ODataFrame {| columns := ["A"%string; "B"%string];
                      rows := [(0%Z, [VInt 1; VNone]);
                               (2%Z, [VInt 3; VInt 3])] |};
        OList ["B"%string]] /\
  option_map index (frame_at h' 1) = Some [0%Z; 2%Z] /\
  list_at h' 2 = Some ["B"%string].
Proof. repeat split. Qed.

(* ================================================================== *)
(** * Unknown column labels                                             *)
(* ================================================================== *)

Lemma getitem_list_absent (df : DataFrame) (x y : string) :
  ~ In x (columns df) \/ ~ In y (columns df) ->
  exists keys, getitem_list df [x; y] = Raise (KeyError keys).
Proof.
  intros Hn. unfold getitem_list.
  destruct (missing_keys (columns df) [x; y]) as [|k ks] eqn:E.
  - apply missing_keys_nil in E.
    inversion E as [|? ? Hx E']; subst. inversion E' as [|? ? Hy _]; subst.
    tauto.
  - eauto.
Qed.

(** C8.  [_calc_missing_impact] raises pandas' [KeyError] (the
    specification's ColumnNotFound) whenever [x] labels no column of the
    table, and [_calc_missing_impact_y] raises it whenever [x] or [y] labels
    no column; in both cases nothing has been allocated. *)
Theorem impact_analyzers_column_not_found :
  forall (h : heap) (p : loc) (df : DataFrame) (num_bins : Z),
    nth_error h p = Some (ODataFrame df) ->
    (forall x,
        ~ In x (columns df) ->
        exists e, _calc_missing_impact p x num_bins h = (Raise e, h) /\
                  ColumnNotFound e) /\
    (forall x y,
        ~ In x (columns df) \/ ~ In y (columns df) ->
        exists e, _calc_missing_impact_y p x y num_bins h = (Raise e, h) /\
                  ColumnNotFound e).
Proof.
  intros h p df num_bins Hp. split.
  - intros x Hn. exists (KeyError [x]). split.
    + now apply calc_missing_impact_absent with (df := df).
    + now exists [x].
  - intros x y Hn.
    destruct (getitem_list_absent df x y Hn) as [keys Hk].
    exists (KeyError keys). split.
    + rewrite (calc_missing_impact_y_run h p df x y num_bins Hp).
      now rewrite Hk.
    + now exists keys.
Qed.

Lemma impact_analyzers_column_not_found_witness :
  (exists e, _calc_missing_impact 0 "Z" 10 [ODataFrame table_AB]
             = (Raise e, [ODataFrame table_AB]) /\ ColumnNotFound e) /\
  (exists e, _calc_missing_impact_y 0 "A" "Z" 10 [ODataFrame table_AB]
             = (Raise e, [ODataFrame table_AB]) /\ ColumnNotFound e) /\
  (exists e, _calc_missing_impact_y 0 "Z" "B" 10 [ODataFrame table_AB]
             = (Raise e, [ODataFrame table_AB]) /\ ColumnNotFound e).
Proof.
  destruct (impact_analyzers_column_not_found
              [ODataFrame table_AB] 0 table_AB 10 eq_refl) as [H1 H2].
  assert (Hz : ~ In "Z"%string (columns table_AB))
    by (simpl; intuition discriminate).
  split; [apply H1; exact Hz|].
  split; apply H2; [right | left]; exact Hz.
Defined.

(* ================================================================== *)
(** * The two-column impact analyzer                                    *)
(* ================================================================== *)

(** What the two-column analyzer computes.  For a table (columns uniquely
    labelled) stored on the heap and two distinct labels [x], [y] of its
    columns, [_calc_missing_impact_y] returns an intermediate result whose
    [df_data_drop] is a new frame with exactly the two columns [x], [y], made
    of the rows of the table in which [x] is present (so every returned row
    has a present value under [x]); its [columns_name] is the list of the
    columns of that frame, [x; y]: unlike [_calc_missing_impact], the
    function does not take [x] out of the list. *)
Lemma two_column_impact_filtered_rows_and_names :
  forall (h : heap) (p : loc) (df : DataFrame) (x y : string) (num_bins : Z),
    nth_error h p = Some (ODataFrame df) ->
    NoDup (columns df) ->
    In x (columns df) ->
    In y (columns df) ->
    x <> y ->
    exists im h' l_frame l_names filtered names,
      _calc_missing_impact_y p x y num_bins h = (Ok im, h') /\
      ref_of (result im) "df_data_drop" = Some l_frame /\
      ref_of (result im) "columns_name" = Some l_names /\
      frame_at h' l_frame = Some filtered /\
      list_at h' l_names = Some names /\
      columns filtered = [x; y] /\
      rows filtered =
        map (fun r => (fst r, [cell df r x; cell df r y]))
            (filter (present_inb df x) (rows df)) /\
      Forall (present_in filtered x) (rows filtered) /\
      names = [x; y].
Proof.
  intros h p df x y num_bins Hp Hnd Hx Hy Hxy.
  pose proof (calc_missing_impact_y_run h p df x y num_bins Hp) as Hrun.
  destruct (getitem_list_pair df x y Hnd Hx Hy)
    as [jx [jy [Ejx [_ [Ejy [_ Hsel]]]]]].
  rewrite Hsel in Hrun.
  unfold dropna in Hrun. simpl columns in Hrun. simpl rows in Hrun.
  assert (E : missing_keys [x; y] [x] = []).
  { apply missing_keys_nil. constructor; [simpl; auto | constructor]. }
  rewrite E in Hrun. simpl flat_map in Hrun.
  rewrite (get_locs_head x y Hxy) in Hrun. simpl app in Hrun.
  rewrite filter_map_comm in Hrun.
  assert (Erows :
    map (fun r : Z * list value =>
           (fst r, [nth jx (snd r) VNone; nth jy (snd r) VNone]))
        (filter (fun a : Z * list value =>
           row_complete [0]
             (fst a, [nth jx (snd a) VNone; nth jy (snd a) VNone]))
           (rows df))
    = map (fun r => (fst r, [cell df r x; cell df r y]))
          (filter (present_inb df x) (rows df))).
  { erewrite filter_ext.
    - apply map_ext. intros r.
      destruct (row_complete_present df x jx r Ejx) as [_ ->].
      destruct (row_complete_present df y jy r Ejy) as [_ ->].
      reflexivity.
    - intros r. destruct (row_complete_present df x jx r Ejx) as [<- _].
      unfold row_complete. reflexivity. }
  rewrite Erows in Hrun.
  do 2 eexists. exists (S (length h)), (S (S (length h))). do 2 eexists.
  split; [exact Hrun|].
  split; [reflexivity|]. split; [reflexivity|].
  split.
  { unfold frame_at.
    replace (S (length h)) with (length (h ++ [ODataFrame
      {| columns := [x; y];
         rows := map (fun r => (fst r, [nth jx (snd r) VNone;
                                        nth jy (snd r) VNone]))
                     (rows df) |}]))
      by (rewrite length_app; simpl; lia).
    change (h ++ [?a; ?b; ?c]) with (h ++ [a] ++ b :: [c]).
    rewrite app_assoc. now rewrite nth_error_fresh. }
  split.
  { unfold list_at.
    match goal with
    | |- context [h ++ [?a; ?b; ?c]] =>
        change (h ++ [a; b; c]) with (h ++ [a; b] ++ c :: []);
        replace (S (S (length h))) with (length (h ++ [a; b]))
          by (rewrite length_app; simpl; lia)
    end.
    rewrite app_assoc. now rewrite nth_error_fresh. }
  simpl. split; [reflexivity|]. split; [reflexivity|]. split; [|reflexivity].
  apply Forall_forall. intros r Hr. apply in_map_iff in Hr.
  destruct Hr as [r0 [<- Hr0]]. apply filter_In in Hr0.
  destruct Hr0 as [_ Hpres].
  unfold present_in, present_inb, lookup_cell. simpl columns.
  rewrite (get_locs_head x y Hxy). simpl.
  unfold present_inb in Hpres. unfold cell.
  destruct (lookup_cell df r0 x); [assumption | discriminate].
Qed.

Lemma two_column_impact_filtered_rows_and_names_witness :
  exists im h' l_frame l_names filtered names,
    _calc_missing_impact_y 0 "A" "B" 10 [ODataFrame table_AB] = (Ok im, h') /\
    ref_of (result im) "df_data_drop" = Some l_frame /\
    ref_of (result im) "columns_name" = Some l_names /\
    frame_at h' l_frame = Some filtered /\
    list_at h' l_names = Some names /\
    columns filtered = ["A"; "B"]%string /\
    rows filtered =
      map (fun r => (fst r, [cell table_AB r "A"; cell table_AB r "B"]))
          (filter (present_inb table_AB "A") (rows table_AB)) /\
    Forall (present_in filtered "A") (rows filtered) /\
    names = ["A"; "B"]%string.
Proof.
  apply (two_column_impact_filtered_rows_and_names
           [ODataFrame table_AB] 0 table_AB "A" "B" 10).
  - reflexivity.
  - simpl. repeat constructor; simpl; intuition discriminate.
  - simpl. auto.
  - simpl. auto.
  - discriminate.
Defined.

(** C2.  The claim is that the two-column analyzer returns the two-column
    filtered table and the name list [y].  On the scenario table with
    x = A and y = B, [_calc_missing_impact_y] does return the frame with the
    columns A, B and the rows in which A is present, but its [columns_name]
    is [A; B]: the designated column is still in the list, where the claim
    (and the function's docstring, "output data character of y_name
    column") want [B] alone.  The sibling [_calc_missing_impact] does take
    the designated column out: on the same table and the same x its
    [columns_name] is [B]. *)
Theorem two_column_impact_names_keep_x :
  (exists im h' l_frame l_names filtered names,
      _calc_missing_impact_y 0 "A" "B" num_bins_default [ODataFrame table_AB]
      = (Ok im, h') /\
      ref_of (result im) "df_data_drop" = Some l_frame /\
      frame_at h' l_frame = Some filtered /\
      columns filtered = ["A"; "B"]%string /\
      index filtered = [0%Z; 2%Z] /\
      Forall (present_in filtered "A") (rows filtered) /\
      ref_of (result im) "columns_name" = Some l_names /\
      list_at h' l_names = Some names /\
      names = ["A"; "B"]%string /\
      names <> ["B"%string]) /\
  (exists im h' l_names,
      _calc_missing_impact 0 "A" num_bins_default [ODataFrame table_AB]
      = (Ok im, h') /\
      ref_of (result im) "columns_name" = Some l_names /\
      list_at h' l_names = Some ["B"%string]).
Proof.
  split.
  - do 6 eexists. split; [reflexivity|].
    split; [reflexivity|]. split; [reflexivity|].
    split; [reflexivity|]. split; [reflexivity|].
    split; [repeat constructor|].
    split; [reflexivity|]. split; [reflexivity|].
    split; [reflexivity | discriminate].
  - do 3 eexists. split; [reflexivity|]. split; reflexivity.
Qed.

(* ================================================================== *)
(** * The global missingness analyzer                                   *)
(* ================================================================== *)

Lemma fold_left_append {A B} (f : A -> B) (l : list A) (init : list B) :
  fold_left (fun acc i => acc ++ [f i]) l init = init ++ map f l.
Proof.
  revert init. induction l as [|a l IH]; intros init; simpl.
  - now rewrite app_nil_r.
  - rewrite IH, <- app_assoc. reflexivity.
Qed.

Lemma count_nonzero_map {A} (f : A -> bool) (l : list A) :
  count_nonzero (map f l) = length (filter f l).
Proof.
  unfold count_nonzero. induction l as [|a l IH]; simpl; auto.
  destruct (f a); simpl; now rewrite IH.
Qed.

Lemma presence_shape (df : DataFrame) :
  shape (presence df) = (length (columns df), length (rows df)).
Proof. reflexivity. Qed.

Lemma presence_data (df : DataFrame) :
  data (presence df) =
  map (fun c => map (fun r => isnull (nth c (snd r) VNone)) (rows df))
      (seq 0 (length (columns df))).
Proof.
  unfold presence, amap, T, values. simpl. rewrite map_map.
  apply map_ext. intros c. now rewrite !map_map.
Qed.

Lemma presence_row_slice (df : DataFrame) (c : nat) :
  c < length (columns df) ->
  row_slice (presence df) c =
  map (fun r => isnull (nth c (snd r) VNone)) (rows df).
Proof.
  intros Hc. unfold row_slice. rewrite presence_data.
  rewrite (nth_indep _ []
             (map (fun r => isnull (nth 0 (snd r) VNone)) (rows df)))
    by (now rewrite length_map, length_seq).
  rewrite (map_nth (fun c => map (fun r => isnull (nth c (snd r) VNone))
                                 (rows df)) (seq 0 (length (columns df))) 0).
  now rewrite seq_nth.
Qed.

Lemma presence_lines (df : DataFrame) :
  length (data (presence df)) = length (columns df) /\
  Forall (fun line => length line = length (rows df)) (data (presence df)).
Proof.
  rewrite presence_data. split.
  - now rewrite length_map, length_seq.
  - apply Forall_forall. intros line Hl. apply in_map_iff in Hl.
    destruct Hl as [c [<- _]]. now rewrite length_map.
Qed.

Lemma dask_compute_all_ok {A B} (f : A -> B) (l : list A) :
  dask_compute (map (fun a (_ : unit) => Ok (f a)) l) = Ok (map f l).
Proof.
  induction l as [|a l IH]; simpl; [reflexivity | now rewrite IH].
Qed.

Lemma dask_compute_first_raises {A B} (e : exn) (l : list A) :
  l <> [] ->
  @dask_compute B (map (fun a (_ : unit) => Raise e) l) = Raise e.
Proof. destruct l; [congruence | reflexivity]. Qed.

(** The tasks of the analyzer, computed: one rate per column when the table
    has a row, a division by zero as soon as there is a column and no row. *)
Lemma rate_tasks_compute (df : DataFrame) :
  dask_compute
    (map (fun i => dask_delayed _calc_nonzero_rate
                     (row_slice (presence df) i) (length (rows df)))
         (seq 0 (length (columns df))))
  = match rows df, columns df with
    | [], _ :: _ => Raise ZeroDivisionError
    | _, _ => Ok (column_missing_rates df)
    end.
Proof.
  assert (Hok : rows df <> [] \/ columns df = [] ->
    dask_compute
      (map (fun i => dask_delayed _calc_nonzero_rate
                       (row_slice (presence df) i) (length (rows df)))
           (seq 0 (length (columns df))))
    = Ok (column_missing_rates df)).
  { intros Hne. unfold column_missing_rates.
    rewrite <- (dask_compute_all_ok
                  (fun c => (Z.of_nat (missing_in_column df c)
                             # Pos.of_nat (length (rows df)))%Q)).
    f_equal. apply map_ext_in. intros c Hc. apply in_seq in Hc.
    destruct Hne as [Hne | Hne];
      [| rewrite Hne in Hc; simpl in Hc; lia].
    unfold dask_delayed, _calc_nonzero_rate.
    rewrite presence_row_slice by lia.
    rewrite count_nonzero_map. unfold missing_in_column.
    destruct (rows df); [congruence | reflexivity]. }
  destruct (rows df) as [|r rs] eqn:Er.
  - destruct (columns df) as [|c cs] eqn:Ec; [apply Hok; now right|].
    unfold dask_delayed, _calc_nonzero_rate. simpl length.
    apply (dask_compute_first_raises (B := Q)). simpl. discriminate.
  - destruct (columns df); apply Hok; left; discriminate.
Qed.

Lemma calc_nonzero_count_run
  (h : heap) (p : loc) (df : DataFrame) (num_rows num_cols : option Z) :
  nth_error h p = Some (ODataFrame df) ->
  _calc_nonzero_count p num_rows num_cols h =
  (omap (fun rates =>
           {| result :=
                [("distribution"%string,
                  PArray (match num_rows, num_cols with
                          | None, None => amap Z.b2z (presence df)
                          | _, _ => slice2 num_cols num_rows
                                      (amap Z.b2z (presence df))
                          end));
                 ("count"%string, PTuple rates)];
              raw_data := [("df"%string, PRef p)];
              visual_type := "dummy" |})
        match rows df, columns df with
        | [], _ :: _ => Raise ZeroDivisionError
        | _, _ => Ok (column_missing_rates df)
        end,
   h).
Proof.
  intros Hp. unfold _calc_nonzero_count.
  unfold bind at 1. rewrite (isnull_values_T_run h p df Hp).
  fold (presence df). rewrite presence_shape.
  rewrite fold_left_append. simpl app.
  unfold bind, lift. rewrite rate_tasks_compute.
  destruct (rows df), (columns df); simpl;
    destruct num_rows, num_cols; reflexivity.
Qed.

Lemma calc_nonzero_count_ok
  (h : heap) (p : loc) (df : DataFrame) (num_rows num_cols : option Z) :
  nth_error h p = Some (ODataFrame df) ->
  rows df <> [] \/ columns df = [] ->
  _calc_nonzero_count p num_rows num_cols h =
  (Ok {| result :=
           [("distribution"%string,
             PArray (match num_rows, num_cols with
                     | None, None => amap Z.b2z (presence df)
                     | _, _ => slice2 num_cols num_rows
                                 (amap Z.b2z (presence df))
                     end));
            ("count"%string, PTuple (column_missing_rates df))];
         raw_data := [("df"%string, PRef p)];
         visual_type := "dummy" |},
   h).
Proof.
  intros Hp Hne. rewrite (calc_nonzero_count_run h p df num_rows num_cols Hp).
  generalize (column_missing_rates df). intros rates.
  destruct (rows df) as [|r rs]; destruct (columns df) as [|c cs];
    try reflexivity.
  destruct Hne; congruence.
Qed.

Lemma calc_nonzero_count_zero_division
  (h : heap) (p : loc) (df : DataFrame) (num_rows num_cols : option Z) :
  nth_error h p = Some (ODataFrame df) ->
  rows df = [] -> columns df <> [] ->
  _calc_nonzero_count p num_rows num_cols h = (Raise ZeroDivisionError, h).
Proof.
  intros Hp Hr Hc. rewrite (calc_nonzero_count_run h p df num_rows num_cols Hp).
  rewrite Hr. destruct (columns df); [congruence | reflexivity].
Qed.

Lemma rate_in_unit_interval (k n : nat) :
  k <= n -> n <> 0 ->
  (0 <= Z.of_nat k # Pos.of_nat n)%Q /\ (Z.of_nat k # Pos.of_nat n <= 1)%Q.
Proof.
  intros Hk Hn.
  assert (E : Z.pos (Pos.of_nat n) = Z.of_nat n)
    by (rewrite <- positive_nat_Z; now rewrite Nat2Pos.id).
  unfold Qle. simpl. rewrite E. lia.
Qed.

Lemma column_missing_rates_bounds (df : DataFrame) :
  rows df <> [] ->
  Forall (fun q => (0 <= q)%Q /\ (q <= 1)%Q) (column_missing_rates df).
Proof.
  intros Hne. apply Forall_forall. intros q Hq.
  unfold column_missing_rates in Hq. apply in_map_iff in Hq.
  destruct Hq as [c [<- _]]. apply rate_in_unit_interval.
  - unfold missing_in_column. apply filter_length_le.
  - destruct (rows df); [congruence | discriminate].
Qed.

(** C1, as the code has it.  For a table with at least one row, stored on the
    heap, [_calc_nonzero_count] returns, whatever [num_rows] and [num_cols]
    are, a [count] with exactly C entries, one per column in column order;
    entry c is the fraction of the rows in which column c is missing (the
    missing rate itself, not one minus it) and lies in [0, 1].  On the table
    A = [1, None, 3], B = [None, 2, 3] the count is (1/3, 1/3). *)
Theorem nonzero_count_is_missing_rate_per_column :
  (forall (h : heap) (p : loc) (df : DataFrame) (num_rows num_cols : option Z),
      nth_error h p = Some (ODataFrame df) ->
      rows df <> [] ->
      exists im rates,
        _calc_nonzero_count p num_rows num_cols h = (Ok im, h) /\
        count_of im = Some rates /\
        length rates = length (columns df) /\
        (forall c, c < length (columns df) ->
                   nth c rates 0%Q
                   = (Z.of_nat (missing_in_column df c)
                      # Pos.of_nat (length (rows df)))%Q) /\
        Forall (fun q => (0 <= q)%Q /\ (q <= 1)%Q) rates) /\
  (forall num_rows num_cols,
      rates_of (_calc_nonzero_count 0 num_rows num_cols [ODataFrame table_AB])
      = Ok (Some [(1 # 3)%Q; (1 # 3)%Q])).
Proof.
  split.
  - intros h p df num_rows num_cols Hp Hne.
    rewrite (calc_nonzero_count_ok h p df num_rows num_cols Hp)
      by (now left).
    do 2 eexists. split; [reflexivity|]. split; [reflexivity|].
    split; [unfold column_missing_rates; now rewrite length_map, length_seq|].
    split.
    + intros c Hc. unfold column_missing_rates.
      rewrite (nth_indep _ 0%Q
                 ((fun c => (Z.of_nat (missing_in_column df c)
                             # Pos.of_nat (length (rows df)))%Q) 0))
        by (now rewrite length_map, length_seq).
      rewrite (map_nth (fun c => (Z.of_nat (missing_in_column df c)
                                  # Pos.of_nat (length (rows df)))%Q)).
      now rewrite seq_nth by assumption.
    + now apply column_missing_rates_bounds.
  - intros num_rows num_cols.
    unfold rates_of.
    rewrite (calc_nonzero_count_run [ODataFrame table_AB] 0 table_AB
               num_rows num_cols eq_refl).
    reflexivity.
Qed.

Lemma nonzero_count_is_missing_rate_per_column_witness :
  exists im rates,
    _calc_nonzero_count 0 (Some 2%Z) (Some 1%Z) [ODataFrame table_AB]
    = (Ok im, [ODataFrame table_AB]) /\
    count_of im = Some rates /\
    length rates = length (columns table_AB) /\
    (forall c, c < length (columns table_AB) ->
               nth c rates 0%Q
               = (Z.of_nat (missing_in_column table_AB c)
                  # Pos.of_nat (length (rows table_AB)))%Q) /\
    Forall (fun q => (0 <= q)%Q /\ (q <= 1)%Q) rates.
Proof.
  apply (proj1 nonzero_count_is_missing_rate_per_column
           [ODataFrame table_AB] 0 table_AB (Some 2%Z) (Some 1%Z)).
  - reflexivity.
  - simpl. discriminate.
Defined.

(** On the scenario table the analyzer's count has two entries, 1/3 and 1/3,
    while the per-row densities of the specification are 1/2, 1/2 and 1. *)
Lemma nonzero_count_is_not_row_density :
  exists im rates,
    _calc_nonzero_count 0 None None [ODataFrame table_AB]
    = (Ok im, [ODataFrame table_AB]) /\
    count_of im = Some rates /\
    rates = [(1 # 3)%Q; (1 # 3)%Q] /\
    Forall2 Qeq (spec_densities table_AB) [(1 # 2)%Q; (1 # 2)%Q; 1%Q] /\
    length rates <> length (rows table_AB) /\
    ~ Forall2 Qeq rates (spec_densities table_AB).
Proof.
  do 2 eexists. split; [reflexivity|]. split; [reflexivity|].
  split; [reflexivity|]. split.
  - repeat constructor.
  - split; [simpl; discriminate|].
    intros H. apply Forall2_length in H. simpl in H. discriminate.
Qed.

(** C3.  The claim is that a table with no row and at least one column
    yields an empty density sequence and an empty matrix without error.  On
    the table with the single column A and no row, [_calc_nonzero_count]
    builds one task for the column, and [_calc_nonzero_rate] divides the
    count 0 by the row count 0: the call raises [ZeroDivisionError] and
    returns no intermediate result. *)
Theorem nonzero_count_no_rows_raises :
  _calc_nonzero_count 0 None None [ODataFrame table_A_empty]
  = (Raise ZeroDivisionError, [ODataFrame table_A_empty]) /\
  rows table_A_empty = [] /\
  length (columns table_A_empty) = 1 /\
  ~ exists im h',
      _calc_nonzero_count 0 None None [ODataFrame table_A_empty]
      = (Ok im, h').
Proof.
  split; [reflexivity|]. split; [reflexivity|]. split; [reflexivity|].
  intros [im [h' H]]. discriminate H.
Qed.

(** The empty case of the analyzer's loop is the table without columns: the
    analyzer computes one rate per column and divides by the number of rows.
    For a table without columns (whatever its number of rows), stored on the
    heap, [_calc_nonzero_count] raises no error and returns an empty [count]
    and an empty [distribution] (no line at all): no rate is computed, so
    nothing is divided.  And whenever the analyzer returns an empty [count],
    the table has no column. *)
Lemma nonzero_count_no_columns_is_empty :
  forall (h : heap) (p : loc) (df : DataFrame) (num_rows num_cols : option Z),
    nth_error h p = Some (ODataFrame df) ->
    (columns df = [] ->
     exists im a,
       _calc_nonzero_count p num_rows num_cols h = (Ok im, h) /\
       count_of im = Some [] /\
       distribution_of im = Some a /\
       data a = [] /\
       fst (shape a) = 0) /\
    (forall im h',
        _calc_nonzero_count p num_rows num_cols h = (Ok im, h') ->
        count_of im = Some [] ->
        columns df = []).
Proof.
  intros h p df num_rows num_cols Hp. split.
  - intros Hc.
    rewrite (calc_nonzero_count_ok h p df num_rows num_cols Hp)
      by (now right).
    do 2 eexists. split; [reflexivity|].
    split; [unfold count_of, column_missing_rates; simpl; now rewrite Hc|].
    split; [reflexivity|].
    destruct (presence_lines df) as [Hlen _]. rewrite Hc in Hlen.
    assert (Hd : data (presence df) = [])
      by (destruct (data (presence df)); [reflexivity | discriminate]).
    assert (Ha : amap Z.b2z (presence df)
                 = {| shape := (0, length (rows df)); data := [] |}).
    { unfold amap. rewrite Hd, presence_shape, Hc. reflexivity. }
    rewrite Ha. unfold slice2, slice_stop.
    destruct num_rows as [r|], num_cols as [c|]; simpl;
      rewrite ?firstn_nil; split; try reflexivity;
      destruct (Z.ltb_spec c 0); lia.
  - intros im h' Hrun Hcount.
    rewrite (calc_nonzero_count_run h p df num_rows num_cols Hp) in Hrun.
    destruct (rows df) as [|r rs] eqn:Er;
      destruct (columns df) as [|c cs] eqn:Ec; try reflexivity;
      simpl in Hrun; try discriminate Hrun.
    injection Hrun as <- _. unfold count_of in Hcount. simpl in Hcount.
    unfold column_missing_rates in Hcount. rewrite Ec in Hcount.
    simpl in Hcount. discriminate.
Qed.

Lemma nonzero_count_no_columns_is_empty_witness :
  (exists im a,
      _calc_nonzero_count 0 None None [ODataFrame table_no_columns]
      = (Ok im, [ODataFrame table_no_columns]) /\
      count_of im = Some [] /\
      distribution_of im = Some a /\
      data a = [] /\
      fst (shape a) = 0) /\
  columns table_no_columns = [].
Proof.
  destruct (nonzero_count_no_columns_is_empty
              [ODataFrame table_no_columns] 0 table_no_columns None None
              eq_refl) as [H1 H2].
  split; [apply H1; reflexivity|].
  apply (H2 (mkIntermediate
               [("distribution"%string,
                 PArray {| shape := (0, 2); data := [] |});
                ("count"%string, PTuple [])]
               [("df"%string, PRef 0)] "dummy")
            [ODataFrame table_no_columns]); reflexivity.
Defined.

(** ** Truncation for rendering *)

Lemma slice_stop_in_range (k : Z) (n : nat) :
  (0 <= k <= Z.of_nat n)%Z -> slice_stop (Some k) n = Z.to_nat k.
Proof.
  intros Hk. unfold slice_stop. destruct (Z.ltb_spec k 0); [lia|].
  now rewrite Z.min_l by lia.
Qed.

Lemma distribution_lines (df : DataFrame) :
  shape (amap Z.b2z (presence df)) = (length (columns df), length (rows df)) /\
  length (data (amap Z.b2z (presence df))) = length (columns df) /\
  Forall (fun line => length line = length (rows df))
         (data (amap Z.b2z (presence df))).
Proof.
  destruct (presence_lines df) as [Hlen Hall].
  split; [reflexivity|]. unfold amap. simpl. split.
  - now rewrite length_map.
  - apply Forall_forall. intros line Hl. apply in_map_iff in Hl.
    destruct Hl as [bs [<- Hbs]]. rewrite length_map.
    rewrite Forall_forall in Hall. now apply Hall.
Qed.

Lemma map_firstn_full {A} (n : nat) (lines : list (list A)) :
  Forall (fun line => length line = n) lines ->
  map (firstn n) lines = lines.
Proof.
  induction 1 as [|line lines Hline _ IH]; simpl; [reflexivity|].
  rewrite IH. f_equal. apply firstn_all2. lia.
Qed.

Lemma Forall_firstn {A} (P : A -> Prop) (n : nat) (l : list A) :
  Forall P l -> Forall P (firstn n l).
Proof.
  intros H. revert n. induction H as [|a l Ha _ IH]; intros [|n]; simpl;
    constructor; auto.
Qed.

Lemma calc_nonzero_count_outputs (h : heap) (p : loc) (df : DataFrame) :
  nth_error h p = Some (ODataFrame df) ->
  exists o : outcome (list Q),
  forall num_rows num_cols,
    matrix_of (_calc_nonzero_count p num_rows num_cols h)
    = omap (fun _ =>
              Some (data (match num_rows, num_cols with
                          | None, None => amap Z.b2z (presence df)
                          | _, _ => slice2 num_cols num_rows
                                      (amap Z.b2z (presence df))
                          end))) o /\
    rates_of (_calc_nonzero_count p num_rows num_cols h) = omap Some o.
Proof.
  intros Hp.
  exists (match rows df, columns df with
          | [], _ :: _ => Raise ZeroDivisionError
          | _, _ => Ok (column_missing_rates df)
          end).
  intros num_rows num_cols. unfold matrix_of, rates_of.
  rewrite (calc_nonzero_count_run h p df num_rows num_cols Hp). simpl fst.
  destruct (match rows df, columns df with
            | [], _ :: _ => Raise ZeroDivisionError
            | _, _ => Ok (column_missing_rates df)
            end); split; reflexivity.
Qed.

(** C6.  For a table stored on the heap and a column cap [k] with
    0 <= k <= C: the [distribution] returned with [num_cols = k] (with or
    without a row cap) has k lines, which are the first k lines (table
    columns) of the [distribution] returned without a column cap under the
    same row cap, and of the untruncated matrix cut to the retained rows; the
    call with the caps fails exactly when the call without them does; and the
    [count] is the same whatever [num_rows] and [num_cols] are. *)
Theorem nonzero_count_truncation_keeps_leading_columns :
  forall (h : heap) (p : loc) (df : DataFrame) (k : Z) (num_rows : option Z),
    nth_error h p = Some (ODataFrame df) ->
    (0 <= k <= Z.of_nat (length (columns df)))%Z ->
    matrix_of (_calc_nonzero_count p num_rows (Some k) h)
    = omap (option_map (firstn (Z.to_nat k)))
           (matrix_of (_calc_nonzero_count p num_rows None h)) /\
    matrix_of (_calc_nonzero_count p num_rows (Some k) h)
    = omap (option_map
              (fun lines =>
                 map (firstn (slice_stop num_rows (length (rows df))))
                     (firstn (Z.to_nat k) lines)))
           (matrix_of (_calc_nonzero_count p None None h)) /\
    (forall lines,
        matrix_of (_calc_nonzero_count p num_rows (Some k) h)
        = Ok (Some lines) ->
        length lines = Z.to_nat k) /\
    (forall nr nc,
        rates_of (_calc_nonzero_count p nr nc h)
        = rates_of (_calc_nonzero_count p None None h)).
Proof.
  intros h p df k num_rows Hp Hk.
  destruct (distribution_lines df) as [Hshape [Hlen Hall]].
  destruct (calc_nonzero_count_outputs h p df Hp) as [o Ho].
  revert Hshape Hlen Hall Ho.
  generalize (amap Z.b2z (presence df)). intros a Hshape Hlen Hall Ho.
  assert (Hcut :
    data (match num_rows with
          | Some _ | _ => slice2 (Some k) num_rows a
          end)
    = map (firstn (slice_stop num_rows (length (rows df))))
          (firstn (Z.to_nat k) (data a))).
  { assert (E : match num_rows with
                | Some _ | _ => slice2 (Some k) num_rows a
                end = slice2 (Some k) num_rows a)
      by (now destruct num_rows).
    rewrite E. unfold slice2. rewrite Hshape. cbn [fst snd data].
    rewrite slice_stop_in_range by assumption. reflexivity. }
  split; [|split; [|split]].
  - rewrite (proj1 (Ho num_rows (Some k))), (proj1 (Ho num_rows None)).
    destruct o as [rates|e]; [|reflexivity].
    cbn [omap option_map]. rewrite Hcut. do 2 f_equal.
    destruct num_rows as [r|].
    + unfold slice2. rewrite Hshape. cbn [fst snd data].
      change (slice_stop None (length (columns df)))
        with (length (columns df)).
      rewrite <- Hlen, firstn_all. now rewrite firstn_map.
    + change (slice_stop None (length (rows df))) with (length (rows df)).
      apply map_firstn_full. now apply Forall_firstn.
  - rewrite (proj1 (Ho num_rows (Some k))), (proj1 (Ho None None)).
    destruct o as [rates|e]; [|reflexivity].
    cbn [omap option_map]. now rewrite Hcut.
  - intros lines. rewrite (proj1 (Ho num_rows (Some k))).
    destruct o as [rates|e]; [|discriminate].
    cbn [omap]. rewrite Hcut. intros H. injection H as <-.
    rewrite length_map, length_firstn, Hlen. lia.
  - intros nr nc. now rewrite (proj2 (Ho nr nc)), (proj2 (Ho None None)).
Qed.

Lemma nonzero_count_truncation_keeps_leading_columns_witness :
  matrix_of (_calc_nonzero_count 0 (Some 2%Z) (Some 1%Z)
               [ODataFrame table_AB])
  = omap (option_map (firstn (Z.to_nat 1)))
         (matrix_of (_calc_nonzero_count 0 (Some 2%Z) None
                       [ODataFrame table_AB])) /\
  matrix_of (_calc_nonzero_count 0 (Some 2%Z) (Some 1%Z)
               [ODataFrame table_AB])
  = Ok (Some [[0%Z; 1%Z]]) /\
  matrix_of (_calc_nonzero_count 0 None None [ODataFrame table_AB])
  = Ok (Some [[0%Z; 1%Z; 0%Z]; [1%Z; 0%Z; 0%Z]]).
Proof.
  destruct (nonzero_count_truncation_keeps_leading_columns
              [ODataFrame table_AB] 0 table_AB 1 (Some 2%Z) eq_refl)
    as [H1 _].
  - simpl. lia.
  - split; [exact H1|]. split; reflexivity.
Defined.

(* ================================================================== *)
(** * The dispatcher: the column type gate                              *)
(* ================================================================== *)

Lemma DataType_neq_spec (a b : DataType) :
  DataType_neq a b = true <-> a <> b.
Proof.
  destruct a as [| |m], b as [| |n]; simpl; split; intros H;
    try congruence; try discriminate; try reflexivity.
  - apply negb_true_iff, Nat.eqb_neq in H. congruence.
  - apply negb_true_iff, Nat.eqb_neq. congruence.
Qed.

Lemma getitem_of_column (df : DataFrame) (name : string) :
  In name (columns df) -> exists column, getitem df name = Ok column.
Proof.
  intros Hin. unfold getitem.
  pose proof (get_locs_In (columns df) name Hin) as Hne.
  destruct (get_locs (columns df) name) as [|j [|j' js]];
    [congruence | eauto | eauto].
Qed.

Lemma unsupported_column_iff
  (get_type : selection -> DataType) (df : DataFrame) (name : string) :
  In name (columns df) ->
  unsupported_column get_type df name = true
  <-> ~ supported (classified get_type df name).
Proof.
  intros Hin. destruct (getitem_of_column df name Hin) as [column Hc].
  unfold unsupported_column, supported, classified. rewrite Hc.
  rewrite andb_true_iff, !DataType_neq_spec. split.
  - intros [H1 H2] [H | H]; congruence.
  - intros H. split; intros E; apply H; [left | right]; now rewrite E.
Qed.

Section DispatcherFacts.

Variable Figure : Type.
Variable get_type : selection -> DataType.
Variables vis0 vis1 vis2 : Intermediate -> dict -> M Figure.
Variable show : Figure -> M unit.


Lemma unsupported_run (h : heap) (p : loc) (df : DataFrame) (name : string) :
  nth_error h p = Some (ODataFrame df) ->
  In name (columns df) ->
  unsupported get_type p name h
  = (Ok (unsupported_column get_type df name), h).
Proof.
  intros Hp Hin. destruct (getitem_of_column df name Hin) as [column Hc].
  unfold unsupported, unsupported_column, bind.
  rewrite (frame_getitem_run h p df Hp), Hc.
  destruct (DataType_neq (get_type column) TYPE_NUM); [|reflexivity].
  now rewrite (frame_getitem_run h p df Hp), Hc.
Qed.

Lemma check_columns_run (h : heap) (p : loc) (df : DataFrame) :
  nth_error h p = Some (ODataFrame df) ->
  forall names,
    incl names (columns df) ->
    check_columns get_type p names h
    = (if existsb (unsupported_column get_type df) names
       then Raise UnsupportedColumnType else Ok tt, h).
Proof.
  intros Hp. induction names as [|name names IH]; intros Hincl.
  - reflexivity.
  - simpl. unfold bind.
    rewrite (unsupported_run h p df name Hp) by (apply Hincl; now left).
    destruct (unsupported_column get_type df name); [reflexivity|].
    simpl. apply IH. intros n Hn. apply Hincl. now right.
Qed.

(** The dispatcher up to the end of its loop: the list of column names is
    allocated, then either the gate raises or the branch on
    [(x_name, y_name)] starts. *)
Lemma plot_missing_gate
  (h : heap) (p : loc) (df : DataFrame) (x_name y_name : option string)
  (num_rows num_cols : option Z) (return_intermediate : bool) :
  nth_error h p = Some (ODataFrame df) ->
  plot_missing get_type vis0 vis1 vis2 show
    p x_name y_name num_rows num_cols return_intermediate h =
  if existsb (unsupported_column get_type df) (columns df)
  then (Raise UnsupportedColumnType, h ++ [OList (columns df)])
  else
    (drawn <-
       match x_name, y_name with
       | Some x, Some y =>
           intermediate <- _calc_missing_impact_y p x y num_bins_default ;;
           fig <- vis2 intermediate
                    [("height"%string, PInt 375); ("width"%string, PInt 325);
                     ("alpha"%string, PFloat (3 # 10)%Q);
                     ("legend_position"%string, PStr "top")] ;;
           ret (fig, intermediate)
       | Some x, None =>
           intermediate <- _calc_missing_impact p x num_bins_default ;;
           fig <- vis1 intermediate
                    [("height"%string, PInt 375); ("width"%string, PInt 325);
                     ("alpha"%string, PFloat (3 # 10)%Q);
                     ("legend_position"%string, PStr "top")] ;;
           ret (fig, intermediate)
       | None, Some _ => raise InvalidArguments
       | None, None =>
           intermediate <- _calc_nonzero_count p num_rows num_cols ;;
           fig <- vis0 intermediate
                    [("height"%string, PInt 375); ("width"%string, PInt 325);
                     ("alpha"%string, PFloat (3 # 10)%Q);
                     ("legend_position"%string, PStr "top")] ;;
           ret (fig, intermediate)
       end ;;
     let '(fig, intermediate) := drawn in
     show fig ;;;
     if return_intermediate then ret (RPair fig intermediate)
     else ret (RFigure fig)) (h ++ [OList (columns df)]).
Proof.
  intros Hp. unfold plot_missing.
  unfold bind at 1. rewrite (list_of_columns_run h p df Hp).
  unfold bind at 1. unfold load_list at 1. rewrite nth_error_fresh.
  unfold bind at 1.
  rewrite (check_columns_run (h ++ [OList (columns df)]) p df)
    by (first [ apply incl_refl
              | eapply extends_nth_error; [apply extends_app | exact Hp] ]).
  destruct (existsb (unsupported_column get_type df) (columns df));
    reflexivity.
Qed.

Lemma gate_closed (df : DataFrame) (name : string) :
  In name (columns df) ->
  ~ supported (classified get_type df name) ->
  existsb (unsupported_column get_type df) (columns df) = true.
Proof.
  intros Hin Hns. apply existsb_exists. exists name. split; [assumption|].
  now apply unsupported_column_iff.
Qed.

Lemma gate_open (df : DataFrame) :
  (forall name, In name (columns df) ->
                supported (classified get_type df name)) ->
  existsb (unsupported_column get_type df) (columns df) = false.
Proof.
  intros Hall.
  destruct (existsb (unsupported_column get_type df) (columns df)) eqn:E;
    [|reflexivity].
  apply existsb_exists in E. destruct E as [name [Hin Hbad]].
  apply unsupported_column_iff in Hbad; [|assumption].
  exfalso. apply Hbad. now apply Hall.
Qed.

End DispatcherFacts.

(** C5.  Whatever the collaborators are: when some column of the table
    classifies as neither [TYPE_NUM] nor [TYPE_CAT], [plot_missing] raises
    the [ValueError] of the type gate (UnsupportedColumnType) for every
    combination of [x_name], [y_name], the caps and the flag; at that point
    the only object it has created is its list of the column names: no
    analyzer has produced a frame or an intermediate result, and no
    rendering routine has been reached. *)
Theorem dispatcher_rejects_unsupported_column_first :
  forall (Figure : Type) (get_type : selection -> DataType)
         (vis0 vis1 vis2 : Intermediate -> dict -> M Figure)
         (show : Figure -> M unit)
         (h : heap) (p : loc) (df : DataFrame) (name : string),
    nth_error h p = Some (ODataFrame df) ->
    In name (columns df) ->
    ~ supported (classified get_type df name) ->
    forall x_name y_name num_rows num_cols return_intermediate,
      plot_missing get_type vis0 vis1 vis2 show
        p x_name y_name num_rows num_cols return_intermediate h
      = (Raise UnsupportedColumnType, h ++ [OList (columns df)]).
Proof.
  intros Figure get_type vis0 vis1 vis2 show h p df name Hp Hin Hns
         x_name y_name num_rows num_cols return_intermediate.
  rewrite (plot_missing_gate Figure get_type vis0 vis1 vis2 show
             h p df x_name y_name num_rows num_cols return_intermediate Hp).
  now rewrite (gate_closed get_type df name Hin Hns).
Qed.

Lemma dispatcher_rejects_unsupported_column_first_witness :
  sample_plot_missing 0 (Some "A"%string) (Some "M"%string) None None true
    [ODataFrame table_mixed]
  = (Raise UnsupportedColumnType,
     [ODataFrame table_mixed; OList (columns table_mixed)]) /\
  sample_plot_missing 0 None None (Some 1%Z) None false
    [ODataFrame table_mixed]
  = (Raise UnsupportedColumnType,
     [ODataFrame table_mixed; OList (columns table_mixed)]).
Proof.
  assert (H : forall x_name y_name num_rows num_cols return_intermediate,
             sample_plot_missing 0 x_name y_name num_rows num_cols
               return_intermediate [ODataFrame table_mixed]
             = (Raise UnsupportedColumnType,
                [ODataFrame table_mixed] ++ [OList (columns table_mixed)])).
  { apply (dispatcher_rejects_unsupported_column_first
             unit sample_get_type sample_vis sample_vis sample_vis
             sample_show [ODataFrame table_mixed] 0 table_mixed "M").
    - reflexivity.
    - simpl. auto.
    - unfold supported. simpl. intros [E | E]; discriminate E. }
  split; apply H.
Defined.

(** C4, as the code has it.  The type gate runs before the arguments are
    looked at.  For a table all of whose columns classify as [TYPE_NUM] or
    [TYPE_CAT], [plot_missing] with [x_name] absent and [y_name] given raises
    the [ValueError] of the argument check (InvalidArguments), whatever the
    cells, the caps and the flag are; when some column classifies as neither,
    the same call raises the [ValueError] of the type gate
    (UnsupportedColumnType) instead. *)
Theorem dispatcher_y_without_x :
  forall (Figure : Type) (get_type : selection -> DataType)
         (vis0 vis1 vis2 : Intermediate -> dict -> M Figure)
         (show : Figure -> M unit)
         (h : heap) (p : loc) (df : DataFrame) (y : string)
         (num_rows num_cols : option Z) (return_intermediate : bool),
    nth_error h p = Some (ODataFrame df) ->
    ((forall name, In name (columns df) ->
                   supported (classified get_type df name)) ->
     plot_missing get_type vis0 vis1 vis2 show
       p None (Some y) num_rows num_cols return_intermediate h
     = (Raise InvalidArguments, h ++ [OList (columns df)])) /\
    ((exists name, In name (columns df) /\
                   ~ supported (classified get_type df name)) ->
     plot_missing get_type vis0 vis1 vis2 show
       p None (Some y) num_rows num_cols return_intermediate h
     = (Raise UnsupportedColumnType, h ++ [OList (columns df)])).
Proof.
  intros Figure get_type vis0 vis1 vis2 show h p df y
         num_rows num_cols return_intermediate Hp.
  rewrite (plot_missing_gate Figure get_type vis0 vis1 vis2 show
             h p df None (Some y) num_rows num_cols return_intermediate Hp).
  split.
  - intros Hall. now rewrite (gate_open get_type df Hall).
  - intros [name [Hin Hns]].
    now rewrite (gate_closed get_type df name Hin Hns).
Qed.

Lemma dispatcher_y_without_x_witness :
  sample_plot_missing 0 None (Some "B"%string) None None false
    [ODataFrame table_AB]
  = (Raise InvalidArguments,
     [ODataFrame table_AB; OList (columns table_AB)]) /\
  sample_plot_missing 0 None (Some "A"%string) None None false
    [ODataFrame table_mixed]
  = (Raise UnsupportedColumnType,
     [ODataFrame table_mixed; OList (columns table_mixed)]).
Proof.
  split.
  - apply (dispatcher_y_without_x
             unit sample_get_type sample_vis sample_vis sample_vis
             sample_show [ODataFrame table_AB] 0 table_AB "B"
             None None false eq_refl).
    intros name [<- | [<- | []]]; unfold supported; simpl; auto.
  - apply (dispatcher_y_without_x
             unit sample_get_type sample_vis sample_vis sample_vis
             sample_show [ODataFrame table_mixed] 0 table_mixed "A"
             None None false eq_refl).
    exists "M"%string. split; [simpl; auto|].
    unfold supported. simpl. intros [E | E]; discriminate E.
Defined.

(** With x absent and y given, a table whose column M classifies as neither
    numeric nor categorical is rejected by the type gate: the error is the
    gate's, not the one of the argument check. *)
Lemma dispatcher_y_without_x_unsupported_table :
  fst (sample_plot_missing 0 None (Some "A"%string) None None false
         [ODataFrame table_mixed])
  = Raise UnsupportedColumnType /\
  ~ supported (classified sample_get_type table_mixed "M") /\
  fst (sample_plot_missing 0 None (Some "A"%string) None None false
         [ODataFrame table_mixed])
  <> Raise InvalidArguments.
Proof.
  split; [reflexivity|]. split.
  - unfold supported. simpl. intros [E | E]; discriminate E.
  - simpl. discriminate.
Qed.

(* ================================================================== *)
(** * The caller's table is left as it was                              *)
(* ================================================================== *)

Lemma preserving_ret {A} (a : A) : preserving (ret a).
Proof. intros h. apply extends_refl. Qed.

Lemma preserving_raise {A} (e : exn) : preserving (@raise A e).
Proof. intros h. apply extends_refl. Qed.

Lemma preserving_lift {A} (o : outcome A) : preserving (lift o).
Proof. intros h. apply extends_refl. Qed.

Lemma preserving_alloc (o : obj) : preserving (alloc o).
Proof. intros h. apply extends_app. Qed.

Lemma preserving_load_frame (l : loc) : preserving (load_frame l).
Proof.
  intros h. unfold load_frame.
  destruct (nth_error h l) as [[d|names]|]; apply extends_refl.
Qed.

Lemma preserving_load_list (l : loc) : preserving (load_list l).
Proof.
  intros h. unfold load_list.
  destruct (nth_error h l) as [[d|names]|]; apply extends_refl.
Qed.

Lemma preserving_bind {A B} (m : M A) (k : A -> M B) :
  preserving m -> (forall a, preserving (k a)) -> preserving (bind m k).
Proof.
  intros Hm Hk h. unfold bind. specialize (Hm h).
  destruct (m h) as [[a|e] h1]; simpl in Hm.
  - eapply extends_trans; [exact Hm | apply Hk].
  - exact Hm.
Qed.

Lemma preserving_calc_nonzero_count (p : loc) (num_rows num_cols : option Z) :
  preserving (_calc_nonzero_count p num_rows num_cols).
Proof.
  intros h. destruct (frame_at_cases h p) as [[df Hp] | Hnone].
  - rewrite (calc_nonzero_count_run h p df num_rows num_cols Hp).
    apply extends_refl.
  - unfold _calc_nonzero_count, isnull_values_T, bind.
    rewrite (load_frame_fails h p Hnone). apply extends_refl.
Qed.

Lemma preserving_calc_missing_impact (p : loc) (x : string) (num_bins : Z) :
  preserving (_calc_missing_impact p x num_bins).
Proof.
  intros h. destruct (frame_at_cases h p) as [[df Hp] | Hnone].
  - destruct (in_dec string_dec x (columns df)) as [Hin | Hn].
    + rewrite (calc_missing_impact_run h p df x num_bins Hp Hin).
      apply extends_app.
    + rewrite (calc_missing_impact_absent h p df x num_bins Hp Hn).
      apply extends_refl.
  - unfold _calc_missing_impact, frame_dropna, bind.
    rewrite (load_frame_fails h p Hnone). apply extends_refl.
Qed.

Lemma preserving_calc_missing_impact_y
  (p : loc) (x y : string) (num_bins : Z) :
  preserving (_calc_missing_impact_y p x y num_bins).
Proof.
  intros h. destruct (frame_at_cases h p) as [[df Hp] | Hnone].
  - rewrite (calc_missing_impact_y_run h p df x y num_bins Hp).
    destruct (getitem_list df [x; y]) as [sel|e]; [|apply extends_refl].
    destruct (dropna sel [x]); apply extends_app.
  - unfold _calc_missing_impact_y, frame_getitem_list, bind.
    rewrite (load_frame_fails h p Hnone). apply extends_refl.
Qed.

Section DispatcherFrame.

Variable Figure : Type.
Variable get_type : selection -> DataType.
Variables vis0 vis1 vis2 : Intermediate -> dict -> M Figure.
Variable show : Figure -> M unit.

Hypothesis vis0_read_only : read_only vis0.
Hypothesis vis1_read_only : read_only vis1.
Hypothesis vis2_read_only : read_only vis2.
Hypothesis show_read_only : forall fig, preserving (show fig).

Lemma preserving_check_columns (p : loc) (names : list string) :
  preserving (check_columns get_type p names).
Proof.
  induction names as [|name names IH]; simpl.
  - apply preserving_ret.
  - apply preserving_bind.
    + assert (Hget : preserving (frame_getitem p name)).
      { unfold frame_getitem. apply preserving_bind.
        - apply preserving_load_frame.
        - intros df. apply preserving_lift. }
      unfold unsupported. apply preserving_bind; [exact Hget|].
      intros column. destruct (DataType_neq (get_type column) TYPE_NUM).
      * apply preserving_bind; [exact Hget|].
        intros column'. apply preserving_ret.
      * apply preserving_ret.
    + intros [|]; [apply preserving_raise | exact IH].
Qed.

Lemma preserving_plot_missing
  (p : loc) (x_name y_name : option string) (num_rows num_cols : option Z)
  (return_intermediate : bool) :
  preserving (plot_missing get_type vis0 vis1 vis2 show
                p x_name y_name num_rows num_cols return_intermediate).
Proof.
  unfold plot_missing.
  apply preserving_bind.
  { unfold list_of_columns. apply preserving_bind.
    - apply preserving_load_frame.
    - intros df. apply preserving_alloc. }
  intros columns_name. apply preserving_bind;
    [apply preserving_load_list|].
  intros names. apply preserving_bind;
    [apply preserving_check_columns|].
  intros _. apply preserving_bind.
  - destruct x_name as [x|], y_name as [y|].
    + apply preserving_bind; [apply preserving_calc_missing_impact_y|].
      intros im. apply preserving_bind.
      * intros h. apply vis2_read_only.
      * intros fig. apply preserving_ret.
    + apply preserving_bind; [apply preserving_calc_missing_impact|].
      intros im. apply preserving_bind.
      * intros h. apply vis1_read_only.
      * intros fig. apply preserving_ret.
    + apply preserving_raise.
    + apply preserving_bind; [apply preserving_calc_nonzero_count|].
      intros im. apply preserving_bind.
      * intros h. apply vis0_read_only.
      * intros fig. apply preserving_ret.
  - intros [fig im]. apply preserving_bind; [apply show_read_only|].
    intros _. destruct return_intermediate; apply preserving_ret.
Qed.

End DispatcherFrame.

Lemma preserving_frame_at {A} (m : M A) (h : heap) (p : loc) (df : DataFrame) :
  preserving m ->
  nth_error h p = Some (ODataFrame df) ->
  extends h (snd (m h)) /\ frame_at (snd (m h)) p = Some df.
Proof.
  intros Hm Hp. split; [apply Hm|].
  unfold frame_at. now rewrite (extends_nth_error _ _ _ _ (Hm h) Hp).
Qed.

(** C9.  The table the caller passes is left as it was by every operation,
    whether the call returns or raises: after [_calc_nonzero_count],
    [_calc_missing_impact], [_calc_missing_impact_y] and - as long as the
    rendering routines and [show] leave the objects they are given as they
    were - after [plot_missing], the heap still holds every object it held,
    unchanged, and in particular the same table at the same place.  The one
    in-place update of the module, [columns_name.remove(x_name)], acts on a
    list made by the analyzer itself. *)
Theorem operations_leave_table_unchanged :
  forall (Figure : Type) (get_type : selection -> DataType)
         (vis0 vis1 vis2 : Intermediate -> dict -> M Figure)
         (show : Figure -> M unit),
    read_only vis0 -> read_only vis1 -> read_only vis2 ->
    (forall fig, preserving (show fig)) ->
    forall (h : heap) (p : loc) (df : DataFrame),
      nth_error h p = Some (ODataFrame df) ->
      (forall num_rows num_cols,
          extends h (snd (_calc_nonzero_count p num_rows num_cols h)) /\
          frame_at (snd (_calc_nonzero_count p num_rows num_cols h)) p
          = Some df) /\
      (forall x num_bins,
          extends h (snd (_calc_missing_impact p x num_bins h)) /\
          frame_at (snd (_calc_missing_impact p x num_bins h)) p
          = Some df) /\
      (forall x y num_bins,
          extends h (snd (_calc_missing_impact_y p x y num_bins h)) /\
          frame_at (snd (_calc_missing_impact_y p x y num_bins h)) p
          = Some df) /\
      (forall x_name y_name num_rows num_cols return_intermediate,
          extends h
            (snd (plot_missing get_type vis0 vis1 vis2 show
                    p x_name y_name num_rows num_cols
                    return_intermediate h)) /\
          frame_at
            (snd (plot_missing get_type vis0 vis1 vis2 show
                    p x_name y_name num_rows num_cols
                    return_intermediate h)) p
          = Some df).
Proof.
  intros Figure get_type vis0 vis1 vis2 show H0 H1 H2 Hshow h p df Hp.
  repeat split; intros;
    try (apply (preserving_frame_at _ h p df); [|exact Hp]);
    try (apply preserving_frame_at with (df := df); [|exact Hp]);
    first [ apply preserving_calc_nonzero_count
          | apply preserving_calc_missing_impact
          | apply preserving_calc_missing_impact_y
          | now apply preserving_plot_missing ].
Qed.

Lemma sample_vis_read_only : read_only sample_vis.
Proof. intros im params h. apply extends_refl. Qed.

Lemma sample_show_read_only : forall fig, preserving (sample_show fig).
Proof. intros fig h. apply extends_refl. Qed.

Lemma operations_leave_table_unchanged_witness :
  frame_at (snd (_calc_missing_impact 0 "A" 10 [ODataFrame table_AB])) 0
  = Some table_AB /\
  frame_at (snd (_calc_missing_impact_y 0 "A" "Z" 10 [ODataFrame table_AB])) 0
  = Some table_AB /\
  frame_at (snd (sample_plot_missing 0 (Some "A"%string) None None None true
                   [ODataFrame table_AB])) 0
  = Some table_AB /\
  frame_at (snd (sample_plot_missing 0 None None None None true
                   [ODataFrame table_A_empty])) 0
  = Some table_A_empty.
Proof.
  destruct (operations_leave_table_unchanged
              unit sample_get_type sample_vis sample_vis sample_vis
              sample_show sample_vis_read_only sample_vis_read_only
              sample_vis_read_only sample_show_read_only
              [ODataFrame table_AB] 0 table_AB eq_refl)
    as [_ [H1 [H2 H3]]].
  destruct (operations_leave_table_unchanged
              unit sample_get_type sample_vis sample_vis sample_vis
              sample_show sample_vis_read_only sample_vis_read_only
              sample_vis_read_only sample_show_read_only
              [ODataFrame table_A_empty] 0 table_A_empty eq_refl)
    as [_ [_ [_ H4]]].
  split; [apply H1|]. split; [apply H2|]. split; [apply H3 | apply H4].
Defined.

(* ================================================================== *)
(** * The bin count the dispatcher records                              *)
(* ================================================================== *)

Lemma bind_ok_inv {A B} (m : M A) (k : A -> M B) (h h' : heap) (b : B) :
  bind m k h = (Ok b, h') ->
  exists a h1, m h = (Ok a, h1) /\ k a h1 = (Ok b, h').
Proof.
  unfold bind. destruct (m h) as [[a|e] h1]; intros H.
  - now exists a, h1.
  - discriminate H.
Qed.

Ltac bind_inv H :=
  let a := fresh "a" in
  let h1 := fresh "h" in
  let Hm := fresh "Hm" in
  apply bind_ok_inv in H; destruct H as [a [h1 [Hm H]]].

Lemma calc_missing_impact_num_bins
  (p : loc) (x : string) (num_bins : Z) (h h' : heap) (im : Intermediate) :
  _calc_missing_impact p x num_bins h = (Ok im, h') ->
  dict_get (raw_data im) "num_bins" = Some (PInt num_bins).
Proof.
  unfold _calc_missing_impact. intros H.
  do 3 bind_inv H. unfold ret in H. injection H as <- _. reflexivity.
Qed.

Lemma calc_missing_impact_y_num_bins
  (p : loc) (x y : string) (num_bins : Z) (h h' : heap) (im : Intermediate) :
  _calc_missing_impact_y p x y num_bins h = (Ok im, h') ->
  dict_get (raw_data im) "num_bins" = Some (PInt num_bins).
Proof.
  unfold _calc_missing_impact_y. intros H.
  do 3 bind_inv H. unfold ret in H. injection H as <- _. reflexivity.
Qed.

(** C10.  Whatever the collaborators are: when [plot_missing] is called with
    [x_name] given (with or without [y_name]) and returns the intermediate
    result, the [num_bins] recorded in its [raw_data] is 10: the dispatcher
    has no parameter for it and calls the analyzers without the keyword. *)
Theorem dispatcher_records_ten_bins :
  forall (Figure : Type) (get_type : selection -> DataType)
         (vis0 vis1 vis2 : Intermediate -> dict -> M Figure)
         (show : Figure -> M unit)
         (p : loc) (x : string) (y_name : option string)
         (num_rows num_cols : option Z) (return_intermediate : bool)
         (h h' : heap) (fig : Figure) (im : Intermediate),
    plot_missing get_type vis0 vis1 vis2 show
      p (Some x) y_name num_rows num_cols return_intermediate h
    = (Ok (RPair fig im), h') ->
    dict_get (raw_data im) "num_bins" = Some (PInt 10).
Proof.
  intros Figure get_type vis0 vis1 vis2 show p x y_name num_rows num_cols
         return_intermediate h h' fig im H.
  unfold plot_missing in H.
  do 4 bind_inv H.
  match goal with
  | Hd : _ = (Ok ?d, _) |- _ =>
      match type of d with
      | (Figure * Intermediate)%type => destruct d as [fig0 im0]; rename Hd into Hdrawn
      end
  end.
  bind_inv H.
  assert (E : im = im0).
  { destruct return_intermediate; unfold ret in H; injection H; congruence. }
  subst im0.
  destruct y_name as [y|].
  - do 2 bind_inv Hdrawn. unfold ret in Hdrawn. injection Hdrawn as _ <- _.
    eapply calc_missing_impact_y_num_bins; eassumption.
  - do 2 bind_inv Hdrawn. unfold ret in Hdrawn. injection Hdrawn as _ <- _.
    eapply calc_missing_impact_num_bins; eassumption.
Qed.

Lemma dispatcher_records_ten_bins_witness :
  (exists fig im h',
      sample_plot_missing 0 (Some "A"%string) (Some "B"%string) None None true
        [ODataFrame table_AB]
      = (Ok (RPair fig im), h') /\
      dict_get (raw_data im) "num_bins" = Some (PInt 10)) /\
  (exists fig im h',
      sample_plot_missing 0 (Some "A"%string) None None None true
        [ODataFrame table_AB]
      = (Ok (RPair fig im), h') /\
      dict_get (raw_data im) "num_bins" = Some (PInt 10)).
Proof.
  split; do 3 eexists; (split; [cbv; reflexivity|]).
  - apply (dispatcher_records_ten_bins
             unit sample_get_type sample_vis sample_vis sample_vis sample_show
             0 "A" (Some "B"%string) None None true
             [ODataFrame table_AB] _ tt _ eq_refl).
  - apply (dispatcher_records_ten_bins
             unit sample_get_type sample_vis sample_vis sample_vis sample_show
             0 "A" None None None true
             [ODataFrame table_AB] _ tt _ eq_refl).
Defined.

(* ================================================================== *)
(** * Further properties of the global missingness analyzer             *)
(* ================================================================== *)

Lemma slice_stop_le (k : option Z) (n : nat) : slice_stop k n <= n.
Proof.
  unfold slice_stop. destruct k as [k|]; [|lia].
  destruct (Z.ltb_spec k 0); lia.
Qed.

Lemma slice_stop_covers (k : option Z) (n : nat) :
  cap_covers k n -> slice_stop k n = n.
Proof.
  unfold cap_covers, slice_stop. destruct k as [k|]; [|reflexivity].
  intros Hk. destruct (Z.ltb_spec k 0); lia.
Qed.

Lemma slice_stop_negative (j n : nat) :
  0 < j -> slice_stop (Some (- Z.of_nat j)%Z) n = n - j.
Proof.
  intros Hj. unfold slice_stop. destruct (Z.ltb_spec (- Z.of_nat j) 0); lia.
Qed.

(** What the analyzer stores under [distribution], for any caps: the lines
    of the 0/1 matrix cut at the two slice stops. *)
Lemma truncated_distribution (df : DataFrame) (num_rows num_cols : option Z) :
  let a := match num_rows, num_cols with
           | None, None => amap Z.b2z (presence df)
           | _, _ => slice2 num_cols num_rows (amap Z.b2z (presence df))
           end in
  shape a = (slice_stop num_cols (length (columns df)),
             slice_stop num_rows (length (rows df))) /\
  data a = map (firstn (slice_stop num_rows (length (rows df))))
               (firstn (slice_stop num_cols (length (columns df)))
                       (data (amap Z.b2z (presence df)))).
Proof.
  destruct (distribution_lines df) as [Hshape [Hlen Hall]].
  assert (Hcut : forall nr nc,
    shape (slice2 nc nr (amap Z.b2z (presence df)))
    = (slice_stop nc (length (columns df)), slice_stop nr (length (rows df)))
    /\ data (slice2 nc nr (amap Z.b2z (presence df)))
       = map (firstn (slice_stop nr (length (rows df))))
             (firstn (slice_stop nc (length (columns df)))
                     (data (amap Z.b2z (presence df))))).
  { intros nr nc. unfold slice2. rewrite Hshape. split; reflexivity. }
  destruct num_rows as [r|], num_cols as [c|]; try apply Hcut.
  cbv zeta. split; [exact Hshape|].
  change (slice_stop None (length (rows df))) with (length (rows df)).
  change (slice_stop None (length (columns df))) with (length (columns df)).
  rewrite <- Hlen, firstn_all. symmetry. now apply map_firstn_full.
Qed.

Lemma calc_nonzero_count_inv
  (h h' : heap) (p : loc) (df : DataFrame) (num_rows num_cols : option Z)
  (im : Intermediate) :
  nth_error h p = Some (ODataFrame df) ->
  _calc_nonzero_count p num_rows num_cols h = (Ok im, h') ->
  (rows df <> [] \/ columns df = []) /\
  h' = h /\
  count_of im = Some (column_missing_rates df) /\
  distribution_of im
  = Some (match num_rows, num_cols with
          | None, None => amap Z.b2z (presence df)
          | _, _ => slice2 num_cols num_rows (amap Z.b2z (presence df))
          end).
Proof.
  intros Hp Hrun.
  assert (Hne : rows df <> [] \/ columns df = []).
  { destruct (rows df) as [|r rs] eqn:Er; [|left; discriminate].
    destruct (columns df) as [|c cs] eqn:Ec; [now right|].
    rewrite (calc_nonzero_count_zero_division h p df num_rows num_cols Hp)
      in Hrun; [discriminate Hrun | assumption | rewrite Ec; discriminate]. }
  split; [exact Hne|].
  rewrite (calc_nonzero_count_ok h p df num_rows num_cols Hp Hne) in Hrun.
  injection Hrun as <- <-. repeat split.
Qed.

(** X1.  [_calc_nonzero_count] fails exactly on the tables that have a column
    and no row, and then with [ZeroDivisionError]; on every other table it
    returns; in both cases the heap is the one it was given. *)
Theorem nonzero_count_fails_exactly_without_rows :
  forall (h : heap) (p : loc) (df : DataFrame) (num_rows num_cols : option Z),
    nth_error h p = Some (ODataFrame df) ->
    (rows df = [] /\ columns df <> [] ->
     _calc_nonzero_count p num_rows num_cols h = (Raise ZeroDivisionError, h))
    /\
    (rows df <> [] \/ columns df = [] ->
     exists im, _calc_nonzero_count p num_rows num_cols h = (Ok im, h)) /\
    (forall e h',
        _calc_nonzero_count p num_rows num_cols h = (Raise e, h') ->
        e = ZeroDivisionError /\ h' = h /\
        rows df = [] /\ columns df <> []).
Proof.
  intros h p df num_rows num_cols Hp. split; [|split].
  - intros [Hr Hc].
    now apply calc_nonzero_count_zero_division with (df := df).
  - intros Hne. eexists.
    now apply calc_nonzero_count_ok with (df := df).
  - intros e h' Hrun.
    destruct (rows df) as [|r rs] eqn:Er.
    + destruct (columns df) as [|c cs] eqn:Ec.
      * rewrite (calc_nonzero_count_ok h p df num_rows num_cols Hp) in Hrun
          by (now right).
        discriminate Hrun.
      * rewrite (calc_nonzero_count_zero_division h p df num_rows num_cols Hp)
          in Hrun by (first [assumption | rewrite Ec; discriminate]).
        injection Hrun as <- <-. repeat split. discriminate.
    + rewrite (calc_nonzero_count_ok h p df num_rows num_cols Hp) in Hrun
        by (left; rewrite Er; discriminate).
      discriminate Hrun.
Qed.

Lemma nonzero_count_fails_exactly_without_rows_witness :
  _calc_nonzero_count 0 (Some 5%Z) None [ODataFrame table_A_empty]
  = (Raise ZeroDivisionError, [ODataFrame table_A_empty]) /\
  (exists im, _calc_nonzero_count 0 None None [ODataFrame table_AB]
              = (Ok im, [ODataFrame table_AB])) /\
  (exists im, _calc_nonzero_count 0 None None [ODataFrame table_no_columns]
              = (Ok im, [ODataFrame table_no_columns])).
Proof.
  split; [|split].
  - apply (nonzero_count_fails_exactly_without_rows
             [ODataFrame table_A_empty] 0 table_A_empty (Some 5%Z) None
             eq_refl).
    split; [reflexivity | discriminate].
  - apply (nonzero_count_fails_exactly_without_rows
             [ODataFrame table_AB] 0 table_AB None None eq_refl).
    left. discriminate.
  - apply (nonzero_count_fails_exactly_without_rows
             [ODataFrame table_no_columns] 0 table_no_columns None None
             eq_refl).
    now right.
Defined.

Lemma In_firstn_In {A} (n : nat) (l : list A) (a : A) :
  In a (firstn n l) -> In a l.
Proof.
  revert n. induction l as [|b l IH]; intros [|n]; simpl; auto.
  - intros [].
  - intros [H | H]; [now left | right; eapply IH; eassumption].
Qed.

Lemma distribution_cell (df : DataFrame) (c r : nat) :
  c < length (columns df) -> r < length (rows df) ->
  nth r (nth c (data (amap Z.b2z (presence df))) []) 0%Z
  = Z.b2z (isnull (nth c (snd (nth r (rows df) (0%Z, []))) VNone)).
Proof.
  intros Hc Hr. unfold amap. cbn [data]. rewrite presence_data, map_map.
  rewrite (nth_indep _ []
             ((fun c => map Z.b2z
                          (map (fun r => isnull (nth c (snd r) VNone))
                               (rows df))) 0))
    by (now rewrite length_map, length_seq).
  rewrite (map_nth (fun c => map Z.b2z
                               (map (fun r => isnull (nth c (snd r) VNone))
                                    (rows df)))).
  rewrite seq_nth by assumption. cbn [Nat.add]. rewrite map_map.
  rewrite (nth_indep _ 0%Z
             ((fun r => Z.b2z (isnull (nth c (snd r) VNone))) (0%Z, [])))
    by (now rewrite length_map).
  now rewrite (map_nth (fun r => Z.b2z (isnull (nth c (snd r) VNone)))).
Qed.

(** X2.  Without caps, the [distribution] that [_calc_nonzero_count]
    returns has shape (C, R), one line per column of the table and one entry
    per row, and the entry of column c and row r is 1 when that cell of the
    table is missing ([None] or [NaN]) and 0 when it is present. *)
Theorem nonzero_count_distribution_marks_missing_cells :
  forall (h h' : heap) (p : loc) (df : DataFrame) (im : Intermediate),
    nth_error h p = Some (ODataFrame df) ->
    _calc_nonzero_count p None None h = (Ok im, h') ->
    exists a,
      distribution_of im = Some a /\
      shape a = (length (columns df), length (rows df)) /\
      length (data a) = length (columns df) /\
      Forall (fun line => length line = length (rows df)) (data a) /\
      forall c r,
        c < length (columns df) -> r < length (rows df) ->
        nth r (nth c (data a) []) 0%Z
        = if isnull (nth c (snd (nth r (rows df) (0%Z, []))) VNone)
          then 1%Z else 0%Z.
Proof.
  intros h h' p df im Hp Hrun.
  destruct (calc_nonzero_count_inv h h' p df None None im Hp Hrun)
    as [_ [_ [_ Hdist]]].
  destruct (distribution_lines df) as [Hshape [Hlen Hall]].
  exists (amap Z.b2z (presence df)).
  repeat (split; [assumption|]).
  intros c r Hc Hr. rewrite distribution_cell by assumption.
  now destruct (isnull _).
Qed.

Lemma nonzero_count_distribution_marks_missing_cells_witness :
  exists a,
    distribution_of
      {| result := [("distribution"%string,
                     PArray {| shape := (2, 3);
                               data := [[0%Z; 1%Z; 0%Z]; [1%Z; 0%Z; 0%Z]] |});
                    ("count"%string, PTuple [(1 # 3)%Q; (1 # 3)%Q])];
         raw_data := [("df"%string, PRef 0)];
         visual_type := "dummy" |} = Some a /\
    shape a = (length (columns table_AB), length (rows table_AB)) /\
    length (data a) = length (columns table_AB) /\
    Forall (fun line => length line = length (rows table_AB)) (data a) /\
    forall c r,
      c < length (columns table_AB) -> r < length (rows table_AB) ->
      nth r (nth c (data a) []) 0%Z
      = if isnull (nth c (snd (nth r (rows table_AB) (0%Z, []))) VNone)
        then 1%Z else 0%Z.
Proof.
  apply (nonzero_count_distribution_marks_missing_cells
           [ODataFrame table_AB] [ODataFrame table_AB] 0 table_AB _
           eq_refl eq_refl).
Defined.

(** X3.  Whatever the caps are (absent, within range, beyond the table or
    negative), the [distribution] that [_calc_nonzero_count] returns is
    well shaped: its recorded shape is the pair of the two slice stops, never
    larger than (C, R), and its data has exactly that many lines of exactly
    that many entries. *)
Theorem nonzero_count_distribution_well_shaped :
  forall (h h' : heap) (p : loc) (df : DataFrame)
         (num_rows num_cols : option Z) (im : Intermediate),
    nth_error h p = Some (ODataFrame df) ->
    _calc_nonzero_count p num_rows num_cols h = (Ok im, h') ->
    exists a,
      distribution_of im = Some a /\
      shape a = (slice_stop num_cols (length (columns df)),
                 slice_stop num_rows (length (rows df))) /\
      fst (shape a) <= length (columns df) /\
      snd (shape a) <= length (rows df) /\
      length (data a) = fst (shape a) /\
      Forall (fun line => length line = snd (shape a)) (data a).
Proof.
  intros h h' p df num_rows num_cols im Hp Hrun.
  destruct (calc_nonzero_count_inv h h' p df num_rows num_cols im Hp Hrun)
    as [_ [_ [_ Hdist]]].
  destruct (distribution_lines df) as [_ [Hlen Hall]].
  destruct (truncated_distribution df num_rows num_cols) as [Hshape Hdata].
  eexists. split; [exact Hdist|]. split; [exact Hshape|].
  rewrite Hshape, Hdata. cbn [fst snd].
  pose proof (slice_stop_le num_cols (length (columns df))) as Hc.
  pose proof (slice_stop_le num_rows (length (rows df))) as Hr.
  split; [exact Hc|]. split; [exact Hr|]. split.
  - rewrite length_map, length_firstn, Hlen. lia.
  - apply Forall_forall. intros line Hin. apply in_map_iff in Hin.
    destruct Hin as [full [<- Hfull]]. apply In_firstn_In in Hfull.
    rewrite Forall_forall in Hall. rewrite length_firstn, (Hall _ Hfull). lia.
Qed.

Lemma nonzero_count_distribution_well_shaped_witness :
  exists a,
    distribution_of
      {| result := [("distribution"%string,
                     PArray {| shape := (1, 3); data := [[0%Z; 1%Z; 0%Z]] |});
                    ("count"%string, PTuple [(1 # 3)%Q; (1 # 3)%Q])];
         raw_data := [("df"%string, PRef 0)];
         visual_type := "dummy" |} = Some a /\
    shape a = (slice_stop (Some (-1)%Z) (length (columns table_AB)),
               slice_stop (Some 7%Z) (length (rows table_AB))) /\
    fst (shape a) <= length (columns table_AB) /\
    snd (shape a) <= length (rows table_AB) /\
    length (data a) = fst (shape a) /\
    Forall (fun line => length line = snd (shape a)) (data a).
Proof.
  apply (nonzero_count_distribution_well_shaped
           [ODataFrame table_AB] [ODataFrame table_AB] 0 table_AB
           (Some 7%Z) (Some (-1)%Z) _ eq_refl eq_refl).
Defined.

(** X4.  Caps that reach or pass the ends of the table are clamped: with
    [num_rows] absent or at least R and [num_cols] absent or at least C,
    [_calc_nonzero_count] returns the same [distribution] as without caps
    (and fails exactly when the call without caps fails). *)
Theorem nonzero_count_caps_beyond_table_are_clamped :
  forall (h : heap) (p : loc) (df : DataFrame) (num_rows num_cols : option Z),
    nth_error h p = Some (ODataFrame df) ->
    cap_covers num_rows (length (rows df)) ->
    cap_covers num_cols (length (columns df)) ->
    matrix_of (_calc_nonzero_count p num_rows num_cols h)
    = matrix_of (_calc_nonzero_count p None None h).
Proof.
  intros h p df num_rows num_cols Hp Hr Hc.
  destruct (calc_nonzero_count_outputs h p df Hp) as [o Ho].
  rewrite (proj1 (Ho num_rows num_cols)), (proj1 (Ho None None)).
  destruct o as [rates|e]; [|reflexivity]. cbn [omap]. do 2 f_equal.
  destruct (truncated_distribution df num_rows num_cols) as [_ ->].
  destruct (truncated_distribution df None None) as [_ Hfull].
  cbv zeta in Hfull.
  rewrite (slice_stop_covers num_rows _ Hr), (slice_stop_covers num_cols _ Hc).
  symmetry. exact Hfull.
Qed.

Lemma nonzero_count_caps_beyond_table_are_clamped_witness :
  matrix_of (_calc_nonzero_count 0 (Some 3%Z) (Some 100%Z)
               [ODataFrame table_AB])
  = matrix_of (_calc_nonzero_count 0 None None [ODataFrame table_AB]).
Proof.
  apply (nonzero_count_caps_beyond_table_are_clamped
           [ODataFrame table_AB] 0 table_AB (Some 3%Z) (Some 100%Z) eq_refl);
    simpl; lia.
Defined.

(** X5.  Negative caps are taken as Python slice stops, counted from the
    end: with [num_rows = -i] and [num_cols = -j] (i, j > 0) the
    [distribution] keeps the first C - j lines of the matrix, each cut to its
    first R - i entries: the last j columns and the last i rows of the table
    are dropped (all of them when j >= C or i >= R). *)
Theorem nonzero_count_negative_caps_drop_from_the_end :
  forall (h : heap) (p : loc) (df : DataFrame) (i j : nat),
    nth_error h p = Some (ODataFrame df) ->
    0 < i -> 0 < j ->
    matrix_of (_calc_nonzero_count p (Some (- Z.of_nat i)%Z)
                 (Some (- Z.of_nat j)%Z) h)
    = omap (option_map
              (fun lines =>
                 map (firstn (length (rows df) - i))
                     (firstn (length (columns df) - j) lines)))
           (matrix_of (_calc_nonzero_count p None None h)).
Proof.
  intros h p df i j Hp Hi Hj.
  destruct (calc_nonzero_count_outputs h p df Hp) as [o Ho].
  rewrite (proj1 (Ho (Some (- Z.of_nat i)%Z) (Some (- Z.of_nat j)%Z))),
          (proj1 (Ho None None)).
  destruct o as [rates|e]; [|reflexivity]. cbn [omap option_map].
  do 2 f_equal.
  destruct (truncated_distribution df (Some (- Z.of_nat i)%Z)
              (Some (- Z.of_nat j)%Z)) as [_ ->].
  now rewrite !slice_stop_negative by assumption.
Qed.

Lemma nonzero_count_negative_caps_drop_from_the_end_witness :
  matrix_of (_calc_nonzero_count 0 (Some (- Z.of_nat 1)%Z)
               (Some (- Z.of_nat 1)%Z) [ODataFrame table_AB])
  = omap (option_map
            (fun lines =>
               map (firstn (length (rows table_AB) - 1))
                   (firstn (length (columns table_AB) - 1) lines)))
         (matrix_of (_calc_nonzero_count 0 None None [ODataFrame table_AB]))
  /\
  matrix_of (_calc_nonzero_count 0 (Some (- Z.of_nat 1)%Z)
               (Some (- Z.of_nat 1)%Z) [ODataFrame table_AB])
  = Ok (Some [[0%Z; 1%Z]]).
Proof.
  split; [|reflexivity].
  apply (nonzero_count_negative_caps_drop_from_the_end
           [ODataFrame table_AB] 0 table_AB 1 1 eq_refl); lia.
Defined.

Lemma line_sum_b2z (bs : list bool) :
  line_sum (map Z.b2z bs) = Z.of_nat (count_nonzero bs).
Proof.
  unfold line_sum, count_nonzero. induction bs as [|b bs IH]; [reflexivity|].
  cbn [map fold_right filter]. rewrite IH. destruct b; cbn [length Z.b2z]; lia.
Qed.

Lemma column_missing_rates_nth (df : DataFrame) (c : nat) :
  c < length (columns df) ->
  nth c (column_missing_rates df) 0%Q
  = (Z.of_nat (missing_in_column df c) # Pos.of_nat (length (rows df)))%Q.
Proof.
  intros Hc. unfold column_missing_rates.
  rewrite (nth_indep _ 0%Q
             ((fun c => (Z.of_nat (missing_in_column df c)
                         # Pos.of_nat (length (rows df)))%Q) 0))
    by (now rewrite length_map, length_seq).
  rewrite (map_nth (fun c => (Z.of_nat (missing_in_column df c)
                              # Pos.of_nat (length (rows df)))%Q)).
  now rewrite seq_nth by assumption.
Qed.

Lemma distribution_line_sum (df : DataFrame) (c : nat) :
  c < length (columns df) ->
  line_sum (nth c (data (amap Z.b2z (presence df))) [])
  = Z.of_nat (missing_in_column df c).
Proof.
  intros Hc. unfold amap. cbn [data].
  rewrite (nth_indep _ [] (map Z.b2z []))
    by (rewrite length_map; destruct (presence_lines df) as [-> _];
        assumption).
  rewrite (map_nth (map Z.b2z)).
  change (nth c (data (presence df)) []) with (row_slice (presence df) c).
  rewrite presence_row_slice by assumption.
  rewrite line_sum_b2z, count_nonzero_map. reflexivity.
Qed.

(** X6.  The two outputs of [_calc_nonzero_count] agree: without caps, the
    entry of [count] for column c is the sum of line c of the [distribution]
    divided by the number of rows. *)
Theorem nonzero_count_rate_is_line_sum_over_rows :
  forall (h h' : heap) (p : loc) (df : DataFrame) (im : Intermediate),
    nth_error h p = Some (ODataFrame df) ->
    _calc_nonzero_count p None None h = (Ok im, h') ->
    exists rates a,
      count_of im = Some rates /\
      distribution_of im = Some a /\
      forall c, c < length (columns df) ->
                nth c rates 0%Q
                = (line_sum (nth c (data a) [])
                   # Pos.of_nat (length (rows df)))%Q.
Proof.
  intros h h' p df im Hp Hrun.
  destruct (calc_nonzero_count_inv h h' p df None None im Hp Hrun)
    as [_ [_ [Hcount Hdist]]].
  do 2 eexists. split; [exact Hcount|]. split; [exact Hdist|].
  intros c Hc. rewrite column_missing_rates_nth by assumption.
  now rewrite distribution_line_sum by assumption.
Qed.

Lemma nonzero_count_rate_is_line_sum_over_rows_witness :
  exists rates a,
    count_of
      {| result := [("distribution"%string,
                     PArray {| shape := (2, 3);
                               data := [[0%Z; 1%Z; 0%Z]; [1%Z; 0%Z; 0%Z]] |});
                    ("count"%string, PTuple [(1 # 3)%Q; (1 # 3)%Q])];
         raw_data := [("df"%string, PRef 0)];
         visual_type := "dummy" |} = Some rates /\
    distribution_of
      {| result := [("distribution"%string,
                     PArray {| shape := (2, 3);
                               data := [[0%Z; 1%Z; 0%Z]; [1%Z; 0%Z; 0%Z]] |});
                    ("count"%string, PTuple [(1 # 3)%Q; (1 # 3)%Q])];
         raw_data := [("df"%string, PRef 0)];
         visual_type := "dummy" |} = Some a /\
    forall c, c < length (columns table_AB) ->
              nth c rates 0%Q
              = (line_sum (nth c (data a) [])
                 # Pos.of_nat (length (rows table_AB)))%Q.
Proof.
  apply (nonzero_count_rate_is_line_sum_over_rows
           [ODataFrame table_AB] [ODataFrame table_AB] 0 table_AB _
           eq_refl eq_refl).
Defined.

Lemma filter_length_zero {A} (f : A -> bool) (l : list A) :
  length (filter f l) = 0 <-> Forall (fun a => f a = false) l.
Proof.
  induction l as [|a l IH]; simpl.
  - split; auto.
  - destruct (f a) eqn:E; simpl.
    + split; [discriminate|]. intros H. inversion H. congruence.
    + rewrite IH. split; intros H; [now constructor | now inversion H].
Qed.

Lemma filter_length_full {A} (f : A -> bool) (l : list A) :
  length (filter f l) = length l <-> Forall (fun a => f a = true) l.
Proof.
  induction l as [|a l IH]; simpl.
  - split; auto.
  - pose proof (filter_length_le f l) as Hle.
    destruct (f a) eqn:E; simpl.
    + split; intros H.
      * constructor; [assumption | apply IH; lia].
      * inversion H as [|? ? _ Hl]; subst. apply IH in Hl. lia.
    + split; [lia|]. intros H. inversion H. congruence.
Qed.

Lemma filter_length_split {A} (f : A -> bool) (l : list A) :
  length (filter f l) + length (filter (fun a => negb (f a)) l) = length l.
Proof.
  induction l as [|a l IH]; simpl; [reflexivity|].
  destruct (f a); simpl; lia.
Qed.

Lemma rate_extremes (k n : nat) :
  n <> 0 ->
  ((Z.of_nat k # Pos.of_nat n == 0)%Q <-> k = 0) /\
  ((Z.of_nat k # Pos.of_nat n == 1)%Q <-> k = n).
Proof.
  intros Hn.
  assert (E : Z.pos (Pos.of_nat n) = Z.of_nat n)
    by (rewrite <- positive_nat_Z; now rewrite Nat2Pos.id).
  unfold Qeq. simpl. rewrite E. split; lia.
Qed.

(** X7.  For a table with at least one row, the entry of [count] for a
    column is 0 exactly when no cell of that column is missing, and 1
    exactly when every cell of that column is missing. *)
Theorem nonzero_count_rate_zero_and_one :
  forall (h h' : heap) (p : loc) (df : DataFrame)
         (num_rows num_cols : option Z) (im : Intermediate) (c : nat),
    nth_error h p = Some (ODataFrame df) ->
    rows df <> [] ->
    c < length (columns df) ->
    _calc_nonzero_count p num_rows num_cols h = (Ok im, h') ->
    exists rates,
      count_of im = Some rates /\
      ((nth c rates 0 == 0)%Q <->
       Forall (fun r => isnull (nth c (snd r) VNone) = false) (rows df)) /\
      ((nth c rates 0 == 1)%Q <->
       Forall (fun r => isnull (nth c (snd r) VNone) = true) (rows df)).
Proof.
  intros h h' p df num_rows num_cols im c Hp Hne Hc Hrun.
  destruct (calc_nonzero_count_inv h h' p df num_rows num_cols im Hp Hrun)
    as [_ [_ [Hcount _]]].
  eexists. split; [exact Hcount|].
  rewrite column_missing_rates_nth by assumption.
  assert (Hn : length (rows df) <> 0)
    by (destruct (rows df); [congruence | discriminate]).
  destruct (rate_extremes (missing_in_column df c) (length (rows df)) Hn)
    as [H0 H1].
  rewrite H0, H1. unfold missing_in_column.
  split; [apply filter_length_zero | apply filter_length_full].
Qed.

Lemma nonzero_count_rate_zero_and_one_witness :
  exists rates,
    count_of
      {| result := [("distribution"%string,
                     PArray {| shape := (2, 2);
                               data := [[0%Z; 0%Z]; [1%Z; 1%Z]] |});
                    ("count"%string, PTuple [(0 # 2)%Q; (2 # 2)%Q])];
         raw_data := [("df"%string, PRef 0)];
         visual_type := "dummy" |} = Some rates /\
    ((nth 1 rates 0 == 0)%Q <->
     Forall (fun r => isnull (nth 1 (snd r) VNone) = false)
            (rows table_full_void)) /\
    ((nth 1 rates 0 == 1)%Q <->
     Forall (fun r => isnull (nth 1 (snd r) VNone) = true)
            (rows table_full_void)).
Proof.
  apply (nonzero_count_rate_zero_and_one
           [ODataFrame table_full_void] [ODataFrame table_full_void] 0
           table_full_void None None _ 1 eq_refl).
  - discriminate.
  - simpl. lia.
  - reflexivity.
Defined.

(* ================================================================== *)
(** * Further properties of the impact analyzers                        *)
(* ================================================================== *)

(** The single-column analyzer on a table that has the column, with what it
    leaves on the heap (no assumption on the labels being unique). *)
Lemma calc_missing_impact_frames
  (h : heap) (p : loc) (df : DataFrame) (x : string) (num_bins : Z) :
  nth_error h p = Some (ODataFrame df) ->
  In x (columns df) ->
  exists im h',
    _calc_missing_impact p x num_bins h = (Ok im, h') /\
    h' = h ++ [ODataFrame {| columns := columns df;
                             rows := rows_present df x |};
               OList (remove_first x (columns df))] /\
    ref_of (result im) "df_data_drop" = Some (length h) /\
    ref_of (result im) "columns_name" = Some (S (length h)) /\
    frame_at h' (length h)
    = Some {| columns := columns df; rows := rows_present df x |} /\
    list_at h' (S (length h)) = Some (remove_first x (columns df)).
Proof.
  intros Hp Hin. do 2 eexists.
  split; [exact (calc_missing_impact_run h p df x num_bins Hp Hin)|].
  split; [reflexivity|]. split; [reflexivity|]. split; [reflexivity|].
  split.
  - unfold frame_at. now rewrite nth_error_fresh.
  - unfold list_at.
    replace (S (length h)) with
      (length (h ++ [ODataFrame {| columns := columns df;
                                   rows := rows_present df x |}]))
      by (rewrite length_app; simpl; lia).
    change (h ++ [?a; ?b]) with (h ++ [a] ++ [b]).
    rewrite app_assoc. now rewrite nth_error_fresh.
Qed.

Lemma row_complete_single (j : nat) (r : Z * list value) :
  row_complete [j] r = negb (isnull (nth j (snd r) VNone)).
Proof.
  unfold row_complete, take_cells, notnull. simpl. now rewrite andb_true_r.
Qed.

(** X8.  The two views of one column agree: for a table with unique labels
    and at least one row, the rate that [_calc_nonzero_count] reports for the
    column labelled [x] is the fraction of the rows that
    [_calc_missing_impact] drops for [x]: (R - retained rows) / R. *)
Theorem global_rate_is_fraction_of_dropped_rows :
  forall (h : heap) (p : loc) (df : DataFrame) (x : string) (num_bins : Z)
         (num_rows num_cols : option Z),
    nth_error h p = Some (ODataFrame df) ->
    NoDup (columns df) ->
    In x (columns df) ->
    rows df <> [] ->
    exists j im1 rates im2 h2 l filtered,
      nth_error (columns df) j = Some x /\
      _calc_nonzero_count p num_rows num_cols h = (Ok im1, h) /\
      count_of im1 = Some rates /\
      _calc_missing_impact p x num_bins h = (Ok im2, h2) /\
      ref_of (result im2) "df_data_drop" = Some l /\
      frame_at h2 l = Some filtered /\
      nth j rates 0%Q
      = (Z.of_nat (length (rows df) - length (rows filtered))
         # Pos.of_nat (length (rows df)))%Q.
Proof.
  intros h p df x num_bins num_rows num_cols Hp Hnd Hin Hne.
  destruct (get_locs_unique (columns df) x Hnd Hin) as [j [Ej Hj]].
  destruct (calc_missing_impact_frames h p df x num_bins Hp Hin)
    as [im2 [h2 [Hrun2 [_ [Href [_ [Hframe _]]]]]]].
  exists j. do 2 eexists. exists im2, h2. do 2 eexists.
  split; [exact Hj|].
  split; [apply (calc_nonzero_count_ok h p df num_rows num_cols Hp);
          now left|].
  split; [reflexivity|].
  split; [exact Hrun2|]. split; [exact Href|]. split; [exact Hframe|].
  assert (Hjlt : j < length (columns df))
    by (apply nth_error_Some; congruence).
  rewrite column_missing_rates_nth by assumption.
  f_equal. f_equal. cbn [rows]. unfold rows_present, missing_in_column.
  rewrite Ej.
  rewrite (filter_ext (row_complete [j])
             (fun r => negb (isnull (nth j (snd r) VNone))))
    by (intros r; apply row_complete_single).
  pose proof (filter_length_split
                (fun r : Z * list value => isnull (nth j (snd r) VNone))
                (rows df)).
  lia.
Qed.

Lemma global_rate_is_fraction_of_dropped_rows_witness :
  exists j im1 rates im2 h2 l filtered,
    nth_error (columns table_AB) j = Some "A"%string /\
    _calc_nonzero_count 0 None None [ODataFrame table_AB]
    = (Ok im1, [ODataFrame table_AB]) /\
    count_of im1 = Some rates /\
    _calc_missing_impact 0 "A" 10 [ODataFrame table_AB] = (Ok im2, h2) /\
    ref_of (result im2) "df_data_drop" = Some l /\
    frame_at h2 l = Some filtered /\
    nth j rates 0%Q
    = (Z.of_nat (length (rows table_AB) - length (rows filtered))
       # Pos.of_nat (length (rows table_AB)))%Q.
Proof.
  apply (global_rate_is_fraction_of_dropped_rows
           [ODataFrame table_AB] 0 table_AB "A" 10 None None eq_refl).
  - simpl. repeat constructor; simpl; intuition discriminate.
  - simpl. auto.
  - discriminate.
Defined.

Lemma filter_idempotent {A} (f : A -> bool) (l : list A) :
  filter f (filter f l) = filter f l.
Proof.
  induction l as [|a l IH]; simpl; [reflexivity|].
  destruct (f a) eqn:E; simpl; [rewrite E|]; now rewrite IH.
Qed.

(** X10.  Filtering is idempotent: when [_calc_missing_impact] is run again,
    for the same column, on the frame it returned, the second filtered frame
    has the same columns and the same rows as the first, and it is again a
    new object. *)
Theorem single_column_impact_is_idempotent :
  forall (h : heap) (p : loc) (df : DataFrame) (x : string) (num_bins : Z),
    nth_error h p = Some (ODataFrame df) ->
    In x (columns df) ->
    exists im1 h1 l1 f1 im2 h2 l2 f2,
      _calc_missing_impact p x num_bins h = (Ok im1, h1) /\
      ref_of (result im1) "df_data_drop" = Some l1 /\
      frame_at h1 l1 = Some f1 /\
      _calc_missing_impact l1 x num_bins h1 = (Ok im2, h2) /\
      ref_of (result im2) "df_data_drop" = Some l2 /\
      frame_at h2 l2 = Some f2 /\
      f2 = f1 /\ l2 <> l1 /\
      frame_at h2 l1 = Some f1.
Proof.
  intros h p df x num_bins Hp Hin.
  destruct (calc_missing_impact_frames h p df x num_bins Hp Hin)
    as [im1 [h1 [Hrun1 [Hh1 [Href1 [_ [Hframe1 _]]]]]]].
  assert (Hp1 : nth_error h1 (length h)
                = Some (ODataFrame {| columns := columns df;
                                      rows := rows_present df x |}))
    by (rewrite Hh1; apply nth_error_fresh).
  destruct (calc_missing_impact_frames h1 (length h) _ x num_bins Hp1 Hin)
    as [im2 [h2 [Hrun2 [Hh2 [Href2 [_ [Hframe2 _]]]]]]].
  exists im1, h1, (length h). eexists. exists im2, h2, (length h1). eexists.
  split; [exact Hrun1|]. split; [exact Href1|]. split; [exact Hframe1|].
  split; [exact Hrun2|]. split; [exact Href2|]. split; [exact Hframe2|].
  split.
  - unfold rows_present. cbn [columns rows].
    now rewrite filter_idempotent.
  - split.
    + rewrite Hh1, length_app. simpl. lia.
    + unfold frame_at.
      rewrite (extends_nth_error h1 h2 (length h) _
                 (ex_intro _ _ Hh2) Hp1).
      reflexivity.
Qed.

Lemma single_column_impact_is_idempotent_witness :
  exists im1 h1 l1 f1 im2 h2 l2 f2,
    _calc_missing_impact 0 "A" 10 [ODataFrame table_AB] = (Ok im1, h1) /\
    ref_of (result im1) "df_data_drop" = Some l1 /\
    frame_at h1 l1 = Some f1 /\
    _calc_missing_impact l1 "A" 10 h1 = (Ok im2, h2) /\
    ref_of (result im2) "df_data_drop" = Some l2 /\
    frame_at h2 l2 = Some f2 /\
    f2 = f1 /\ l2 <> l1 /\
    frame_at h2 l1 = Some f1.
Proof.
  apply (single_column_impact_is_idempotent
           [ODataFrame table_AB] 0 table_AB "A" 10 eq_refl).
  simpl. auto.
Defined.

(** The two-column analyzer on two labels of a uniquely labelled table (the
    labels may coincide), with what it leaves on the heap. *)
Lemma calc_missing_impact_y_frames
  (h : heap) (p : loc) (df : DataFrame) (x y : string) (num_bins : Z) :
  nth_error h p = Some (ODataFrame df) ->
  NoDup (columns df) ->
  In x (columns df) ->
  In y (columns df) ->
  exists im h' sel,
    _calc_missing_impact_y p x y num_bins h = (Ok im, h') /\
    h' = h ++ [ODataFrame sel;
               ODataFrame
                 {| columns := [x; y];
                    rows := map (fun r => (fst r, [cell df r x; cell df r y]))
                                (filter (present_inb df x) (rows df)) |};
               OList [x; y]] /\
    ref_of (result im) "df_data_drop" = Some (S (length h)) /\
    ref_of (result im) "columns_name" = Some (S (S (length h))).
Proof.
  intros Hp Hnd Hx Hy.
  pose proof (calc_missing_impact_y_run h p df x y num_bins Hp) as Hrun.
  destruct (getitem_list_pair df x y Hnd Hx Hy)
    as [jx [jy [Ejx [_ [Ejy [_ Hsel]]]]]].
  rewrite Hsel in Hrun. unfold dropna in Hrun.
  cbn [columns rows] in Hrun.
  assert (E : missing_keys [x; y] [x] = []).
  { apply missing_keys_nil. constructor; [simpl; auto | constructor]. }
  rewrite E in Hrun. cbn [flat_map] in Hrun. rewrite app_nil_r in Hrun.
  rewrite filter_map_comm in Hrun. cbn [columns] in Hrun.
  assert (Erows :
    map (fun r : Z * list value =>
           (fst r, [nth jx (snd r) VNone; nth jy (snd r) VNone]))
        (filter (fun a : Z * list value =>
           row_complete (get_locs [x; y] x)
             (fst a, [nth jx (snd a) VNone; nth jy (snd a) VNone]))
           (rows df))
    = map (fun r => (fst r, [cell df r x; cell df r y]))
          (filter (present_inb df x) (rows df))).
  { erewrite filter_ext.
    - apply map_ext. intros r.
      destruct (row_complete_present df x jx r Ejx) as [_ ->].
      destruct (row_complete_present df y jy r Ejy) as [_ ->].
      reflexivity.
    - intros r. destruct (row_complete_present df x jx r Ejx) as [<- Hcx].
      unfold get_locs, row_complete, take_cells. cbn [locs_from].
      rewrite String.eqb_refl.
      destruct (String.eqb y x) eqn:Eyx; cbn [map snd nth forallb].
      + apply String.eqb_eq in Eyx. subst y.
        assert (jy = jx) by congruence. subst jy.
        destruct (notnull (nth jx (snd r) VNone)); reflexivity.
      + reflexivity. }
  rewrite Erows in Hrun.
  do 3 eexists. split; [exact Hrun|].
  split; [reflexivity|]. split; reflexivity.
Qed.

(** X9.  The two impact analyzers retain the same rows: for a table with
    unique labels and labels [x], [y] of its columns, the frame that
    [_calc_missing_impact_y] returns has the row labels of the frame that
    [_calc_missing_impact] returns for [x], in the same order, and each of
    its rows is the corresponding row narrowed to the cells under [x] and
    [y]. *)
Theorem impact_analyzers_retain_the_same_rows :
  forall (h : heap) (p : loc) (df : DataFrame) (x y : string)
         (num_bins : Z),
    nth_error h p = Some (ODataFrame df) ->
    NoDup (columns df) ->
    In x (columns df) ->
    In y (columns df) ->
    exists im1 h1 l1 f1 im2 h2 l2 f2,
      _calc_missing_impact p x num_bins h = (Ok im1, h1) /\
      ref_of (result im1) "df_data_drop" = Some l1 /\
      frame_at h1 l1 = Some f1 /\
      _calc_missing_impact_y p x y num_bins h = (Ok im2, h2) /\
      ref_of (result im2) "df_data_drop" = Some l2 /\
      frame_at h2 l2 = Some f2 /\
      index f2 = index f1 /\
      rows f2 = map (fun r => (fst r, [cell f1 r x; cell f1 r y])) (rows f1).
Proof.
  intros h p df x y num_bins Hp Hnd Hx Hy.
  destruct (calc_missing_impact_frames h p df x num_bins Hp Hx)
    as [im1 [h1 [Hrun1 [_ [Href1 [_ [Hframe1 _]]]]]]].
  destruct (calc_missing_impact_y_frames h p df x y num_bins Hp Hnd Hx Hy)
    as [im2 [h2 [sel [Hrun2 [Hh2 [Href2 _]]]]]].
  exists im1, h1, (length h). eexists. exists im2, h2, (S (length h)).
  eexists.
  split; [exact Hrun1|]. split; [exact Href1|]. split; [exact Hframe1|].
  split; [exact Hrun2|]. split; [exact Href2|].
  split.
  { rewrite Hh2. unfold frame_at.
    replace (S (length h)) with (length (h ++ [ODataFrame sel]))
      by (rewrite length_app; simpl; lia).
    change (h ++ [?a; ?b; ?c]) with (h ++ [a] ++ b :: [c]).
    rewrite app_assoc. now rewrite nth_error_fresh. }
  cbn [rows]. rewrite (rows_present_filter df x Hnd Hx).
  split; [|reflexivity].
  unfold index. cbn [rows]. rewrite map_map. reflexivity.
Qed.

Lemma impact_analyzers_retain_the_same_rows_witness :
  exists im1 h1 l1 f1 im2 h2 l2 f2,
    _calc_missing_impact 0 "A" 10 [ODataFrame table_AB] = (Ok im1, h1) /\
    ref_of (result im1) "df_data_drop" = Some l1 /\
    frame_at h1 l1 = Some f1 /\
    _calc_missing_impact_y 0 "A" "B" 10 [ODataFrame table_AB]
    = (Ok im2, h2) /\
    ref_of (result im2) "df_data_drop" = Some l2 /\
    frame_at h2 l2 = Some f2 /\
    index f2 = index f1 /\
    rows f2 = map (fun r => (fst r, [cell f1 r "A"; cell f1 r "B"])) (rows f1).
Proof.
  apply (impact_analyzers_retain_the_same_rows
           [ODataFrame table_AB] 0 table_AB "A" "B" 10 eq_refl).
  - simpl. repeat constructor; simpl; intuition discriminate.
  - simpl. auto.
  - simpl. auto.
Defined.

(** X11.  Equal labels are not rejected: for a table with unique labels and
    a label [x] of one of its columns, [_calc_missing_impact_y] called with
    [y_name = x_name = x] returns a frame with two columns that are both
    labelled [x] and both hold the cells of [x], for the rows in which [x] is
    present, and the name list [x; x]. *)
Theorem two_column_impact_with_equal_labels :
  forall (h : heap) (p : loc) (df : DataFrame) (x : string) (num_bins : Z),
    nth_error h p = Some (ODataFrame df) ->
    NoDup (columns df) ->
    In x (columns df) ->
    exists im h' l_frame l_names filtered names,
      _calc_missing_impact_y p x x num_bins h = (Ok im, h') /\
      ref_of (result im) "df_data_drop" = Some l_frame /\
      ref_of (result im) "columns_name" = Some l_names /\
      frame_at h' l_frame = Some filtered /\
      list_at h' l_names = Some names /\
      columns filtered = [x; x] /\
      rows filtered =
        map (fun r => (fst r, [cell df r x; cell df r x]))
            (filter (present_inb df x) (rows df)) /\
      names = [x; x].
Proof.
  intros h p df x num_bins Hp Hnd Hx.
  destruct (calc_missing_impact_y_frames h p df x x num_bins Hp Hnd Hx Hx)
    as [im [h' [sel [Hrun [Hh' [Href1 Href2]]]]]].
  exists im, h', (S (length h)), (S (S (length h))). do 2 eexists.
  split; [exact Hrun|]. split; [exact Href1|]. split; [exact Href2|].
  split.
  { rewrite Hh'. unfold frame_at.
    replace (S (length h)) with (length (h ++ [ODataFrame sel]))
      by (rewrite length_app; simpl; lia).
    change (h ++ [?a; ?b; ?c]) with (h ++ [a] ++ b :: [c]).
    rewrite app_assoc. now rewrite nth_error_fresh. }
  split.
  { rewrite Hh'. unfold list_at.
    match goal with
    | |- context [h ++ [?a; ?b; ?c]] =>
        change (h ++ [a; b; c]) with (h ++ [a; b] ++ c :: []);
        replace (S (S (length h))) with (length (h ++ [a; b]))
          by (rewrite length_app; simpl; lia)
    end.
    rewrite app_assoc. now rewrite nth_error_fresh. }
  repeat split.
Qed.

Lemma two_column_impact_with_equal_labels_witness :
  exists im h' l_frame l_names filtered names,
    _calc_missing_impact_y 0 "A" "A" 10 [ODataFrame table_AB] = (Ok im, h') /\
    ref_of (result im) "df_data_drop" = Some l_frame /\
    ref_of (result im) "columns_name" = Some l_names /\
    frame_at h' l_frame = Some filtered /\
    list_at h' l_names = Some names /\
    columns filtered = ["A"; "A"]%string /\
    rows filtered =
      map (fun r => (fst r, [cell table_AB r "A"; cell table_AB r "A"]))
          (filter (present_inb table_AB "A") (rows table_AB)) /\
    names = ["A"; "A"]%string.
Proof.
  apply (two_column_impact_with_equal_labels
           [ODataFrame table_AB] 0 table_AB "A" 10 eq_refl).
  - simpl. repeat constructor; simpl; intuition discriminate.
  - simpl. auto.
Defined.

Lemma locs_from_label (k : nat) (cols : list string) (key : string) (j : nat) :
  In j (locs_from k cols key) ->
  k <= j /\ nth_error cols (j - k) = Some key.
Proof.
  revert k. induction cols as [|c cs IH]; intros k Hin; [destruct Hin|].
  simpl in Hin. destruct (String.eqb c key) eqn:E.
  - destruct Hin as [<- | Hin].
    + apply String.eqb_eq in E. subst. rewrite Nat.sub_diag. auto.
    + destruct (IH (S k) Hin) as [Hle Hnth]. split; [lia|].
      replace (j - k) with (S (j - S k)) by lia. exact Hnth.
  - destruct (IH (S k) Hin) as [Hle Hnth]. split; [lia|].
    replace (j - k) with (S (j - S k)) by lia. exact Hnth.
Qed.

(** Narrowing to labels of the frame keeps those labels. *)
Lemma getitem_list_keeps_first_label (df : DataFrame) (x y : string) :
  In x (columns df) -> In y (columns df) ->
  exists sel,
    getitem_list df [x; y] = Ok sel /\
    In x (columns sel) /\
    rows sel = map (fun r => (fst r,
                              take_cells (get_locs (columns df) x
                                          ++ get_locs (columns df) y)
                                         (snd r)))
                   (rows df).
Proof.
  intros Hx Hy. unfold getitem_list.
  assert (E : missing_keys (columns df) [x; y] = []).
  { apply missing_keys_nil. repeat constructor; auto. }
  rewrite E. eexists. split; [reflexivity|]. cbn [flat_map take columns rows].
  rewrite app_nil_r. split; [|reflexivity].
  pose proof (get_locs_In (columns df) x Hx) as Hne.
  destruct (get_locs (columns df) x) as [|j js] eqn:Ej; [congruence|].
  destruct (locs_from_label 0 (columns df) x j) as [_ Hnth].
  { unfold get_locs in Ej. rewrite Ej. now left. }
  rewrite Nat.sub_0_r in Hnth. unfold take_labels. cbn [app map].
  left. now apply nth_error_nth.
Qed.

(** X12.  A table without rows is no error for the impact analyzers: when
    the designated labels are columns of the table, [_calc_missing_impact]
    and [_calc_missing_impact_y] return, and their filtered frames have no
    row (the single-column one keeps all the columns of the table). *)
Theorem impact_analyzers_accept_table_without_rows :
  forall (h : heap) (p : loc) (df : DataFrame) (num_bins : Z),
    nth_error h p = Some (ODataFrame df) ->
    rows df = [] ->
    (forall x,
        In x (columns df) ->
        exists im h' l filtered,
          _calc_missing_impact p x num_bins h = (Ok im, h') /\
          ref_of (result im) "df_data_drop" = Some l /\
          frame_at h' l = Some filtered /\
          columns filtered = columns df /\
          rows filtered = []) /\
    (forall x y,
        In x (columns df) -> In y (columns df) ->
        exists im h' l filtered,
          _calc_missing_impact_y p x y num_bins h = (Ok im, h') /\
          ref_of (result im) "df_data_drop" = Some l /\
          frame_at h' l = Some filtered /\
          rows filtered = []).
Proof.
  intros h p df num_bins Hp Hrows. split.
  - intros x Hx.
    destruct (calc_missing_impact_frames h p df x num_bins Hp Hx)
      as [im [h' [Hrun [_ [Href [_ [Hframe _]]]]]]].
    exists im, h', (length h). eexists.
    split; [exact Hrun|]. split; [exact Href|]. split; [exact Hframe|].
    split; [reflexivity|]. cbn [rows]. unfold rows_present.
    now rewrite Hrows.
  - intros x y Hx Hy.
    pose proof (calc_missing_impact_y_run h p df x y num_bins Hp) as Hrun.
    destruct (getitem_list_keeps_first_label df x y Hx Hy)
      as [sel [Hsel [Hxsel Hrsel]]].
    rewrite Hsel, (dropna_ok_iff sel x Hxsel) in Hrun.
    do 2 eexists. exists (S (length h)). eexists.
    split; [exact Hrun|]. split; [reflexivity|].
    split.
    { unfold frame_at.
      replace (S (length h)) with (length (h ++ [ODataFrame sel]))
        by (rewrite length_app; simpl; lia).
      change (h ++ [?a; ?b; ?c]) with (h ++ [a] ++ b :: [c]).
      rewrite app_assoc. now rewrite nth_error_fresh. }
    cbn [rows]. unfold rows_present. rewrite Hrsel, Hrows. reflexivity.
Qed.

Lemma impact_analyzers_accept_table_without_rows_witness :
  (exists im h' l filtered,
      _calc_missing_impact 0 "A" 10 [ODataFrame table_A_empty]
      = (Ok im, h') /\
      ref_of (result im) "df_data_drop" = Some l /\
      frame_at h' l = Some filtered /\
      columns filtered = columns table_A_empty /\
      rows filtered = []) /\
  (exists im h' l filtered,
      _calc_missing_impact_y 0 "A" "A" 10 [ODataFrame table_A_empty]
      = (Ok im, h') /\
      ref_of (result im) "df_data_drop" = Some l /\
      frame_at h' l = Some filtered /\
      rows filtered = []).
Proof.
  destruct (impact_analyzers_accept_table_without_rows
              [ODataFrame table_A_empty] 0 table_A_empty 10
              eq_refl eq_refl) as [H1 H2].
  split; [apply H1 | apply H2]; simpl; auto.
Defined.

Lemma remove_first_count_occ (x c : string) (cols : list string) :
  In x cols ->
  count_occ string_dec (remove_first x cols) c
  = if string_dec c x then count_occ string_dec cols c - 1
    else count_occ string_dec cols c.
Proof.
  induction cols as [|d cs IH]; intros Hin; [destruct Hin|].
  cbn [remove_first]. destruct (String.eqb d x) eqn:E.
  - apply String.eqb_eq in E. subst d. cbn [count_occ].
    destruct (string_dec x c) as [-> | Hne].
    + destruct (string_dec c c); [lia | congruence].
    + destruct (string_dec c x); [congruence | reflexivity].
  - apply String.eqb_neq in E.
    destruct Hin as [Heq | Hin]; [congruence|].
    cbn [count_occ]. rewrite (IH Hin).
    destruct (string_dec d c) as [-> | Hdc].
    + destruct (string_dec c x); [congruence | reflexivity].
    + reflexivity.
Qed.

(** X13.  [columns_name.remove(x_name)] removes one occurrence and nothing
    else.  For any table that has a column labelled [x] (labels need not be
    unique), the name list of [_calc_missing_impact] has length C - 1, holds
    [x] once less than the table does and every other label as often as the
    table does; so [x] is still in the list exactly when the table carries
    the label on two columns or more. *)
Theorem single_column_impact_removes_one_occurrence :
  forall (h : heap) (p : loc) (df : DataFrame) (x : string) (num_bins : Z),
    nth_error h p = Some (ODataFrame df) ->
    In x (columns df) ->
    exists im h' l names,
      _calc_missing_impact p x num_bins h = (Ok im, h') /\
      ref_of (result im) "columns_name" = Some l /\
      list_at h' l = Some names /\
      length names = length (columns df) - 1 /\
      count_occ string_dec names x
      = count_occ string_dec (columns df) x - 1 /\
      (forall c, c <> x ->
                 count_occ string_dec names c
                 = count_occ string_dec (columns df) c) /\
      (In x names <-> 2 <= count_occ string_dec (columns df) x).
Proof.
  intros h p df x num_bins Hp Hin.
  destruct (calc_missing_impact_frames h p df x num_bins Hp Hin)
    as [im [h' [Hrun [_ [_ [Href [_ Hlist]]]]]]].
  exists im, h', (S (length h)). eexists.
  split; [exact Hrun|]. split; [exact Href|]. split; [exact Hlist|].
  split; [now apply remove_first_length|].
  assert (Hx : count_occ string_dec (remove_first x (columns df)) x
               = count_occ string_dec (columns df) x - 1).
  { rewrite remove_first_count_occ by assumption.
    destruct (string_dec x x); [reflexivity | congruence]. }
  split; [exact Hx|]. split.
  - intros c Hc. rewrite remove_first_count_occ by assumption.
    destruct (string_dec c x); [congruence | reflexivity].
  - rewrite (count_occ_In string_dec), Hx. lia.
Qed.

Lemma single_column_impact_removes_one_occurrence_witness :
  exists im h' l names,
    _calc_missing_impact 0 "A" 10 [ODataFrame table_AAB] = (Ok im, h') /\
    ref_of (result im) "columns_name" = Some l /\
    list_at h' l = Some names /\
    length names = length (columns table_AAB) - 1 /\
    count_occ string_dec names "A"%string
    = count_occ string_dec (columns table_AAB) "A"%string - 1 /\
    (forall c, c <> "A"%string ->
               count_occ string_dec names c
               = count_occ string_dec (columns table_AAB) c) /\
    (In "A"%string names
     <-> 2 <= count_occ string_dec (columns table_AAB) "A"%string).
Proof.
  apply (single_column_impact_removes_one_occurrence
           [ODataFrame table_AAB] 0 table_AAB "A" 10 eq_refl).
  simpl. auto.
Defined.

(** X14.  The two ends of the filter.  For a table with unique labels and a
    label [x] of one of its columns, the frame that [_calc_missing_impact]
    returns is a new object, never the caller's table itself; when no row
    misses [x] it is a copy of the whole table, and when every row misses
    [x] it has all the columns of the table and no row. *)
Theorem single_column_impact_keeps_all_or_nothing :
  forall (h : heap) (p : loc) (df : DataFrame) (x : string) (num_bins : Z),
    nth_error h p = Some (ODataFrame df) ->
    NoDup (columns df) ->
    In x (columns df) ->
    exists im h' l filtered,
      _calc_missing_impact p x num_bins h = (Ok im, h') /\
      ref_of (result im) "df_data_drop" = Some l /\
      frame_at h' l = Some filtered /\
      l <> p /\
      (Forall (present_in df x) (rows df) -> filtered = df) /\
      (Forall (fun r => present_inb df x r = false) (rows df) ->
       columns filtered = columns df /\ rows filtered = []).
Proof.
  intros h p df x num_bins Hp Hnd Hin.
  destruct (calc_missing_impact_frames h p df x num_bins Hp Hin)
    as [im [h' [Hrun [_ [Href [_ [Hframe _]]]]]]].
  exists im, h', (length h). eexists.
  split; [exact Hrun|]. split; [exact Href|]. split; [exact Hframe|].
  split.
  { assert (p < length h) by (apply nth_error_Some; congruence). lia. }
  rewrite (rows_present_filter df x Hnd Hin). split.
  - intros Hall. destruct df as [cols rws]. cbn [columns rows] in *.
    f_equal. apply forallb_filter_id. apply forallb_forall.
    rewrite Forall_forall in Hall. exact Hall.
  - intros Hnone. split; [reflexivity|]. cbn [rows].
    apply filter_length_zero in Hnone.
    destruct (filter (present_inb df x) (rows df));
      [reflexivity | discriminate].
Qed.

Lemma single_column_impact_keeps_all_or_nothing_witness :
  (exists im h' l filtered,
      _calc_missing_impact 0 "A" 10 [ODataFrame table_full_void]
      = (Ok im, h') /\
      ref_of (result im) "df_data_drop" = Some l /\
      frame_at h' l = Some filtered /\
      l <> 0 /\
      filtered = table_full_void) /\
  (exists im h' l filtered,
      _calc_missing_impact 0 "B" 10 [ODataFrame table_full_void]
      = (Ok im, h') /\
      ref_of (result im) "df_data_drop" = Some l /\
      frame_at h' l = Some filtered /\
      l <> 0 /\
      columns filtered = columns table_full_void /\ rows filtered = []).
Proof.
  assert (Hnd : NoDup (columns table_full_void))
    by (simpl; repeat constructor; simpl; intuition discriminate).
  split.
  - destruct (single_column_impact_keeps_all_or_nothing
                [ODataFrame table_full_void] 0 table_full_void "A" 10
                eq_refl Hnd)
      as [im [h' [l [f [H1 [H2 [H3 [H4 [H5 _]]]]]]]]]; [simpl; auto|].
    exists im, h', l, f. repeat (split; [assumption|]).
    apply H5. repeat constructor.
  - destruct (single_column_impact_keeps_all_or_nothing
                [ODataFrame table_full_void] 0 table_full_void "B" 10
                eq_refl Hnd)
      as [im [h' [l [f [H1 [H2 [H3 [H4 [_ H6]]]]]]]]]; [simpl; auto|].
    exists im, h', l, f. repeat (split; [assumption|]).
    apply H6. repeat constructor.
Defined.

(* ================================================================== *)
(** * Further properties of the dispatcher                              *)
(* ================================================================== *)

Lemma bind_related {A B}
  (P : outcome B * heap -> outcome B * heap -> Prop)
  (m : M A) (k1 k2 : A -> M B) (h : heap) :
  (forall e h', P (Raise e, h') (Raise e, h')) ->
  (forall a h', P (k1 a h') (k2 a h')) ->
  P (bind m k1 h) (bind m k2 h).
Proof.
  intros Hraise Hk. unfold bind. destruct (m h) as [[a|e] h']; auto.
Qed.

(** X15.  [return_intermediate] only selects what is handed back.  Whatever
    the table, the arguments and the collaborators are, the call with the
    flag set and the call without it leave the same heap, fail with the same
    exception or return the same figure; the call without the flag returns
    the figure alone and the call with it returns the pair. *)
Theorem dispatcher_flag_only_selects_the_result :
  forall (Figure : Type) (get_type : selection -> DataType)
         (vis0 vis1 vis2 : Intermediate -> dict -> M Figure)
         (show : Figure -> M unit)
         (p : loc) (x_name y_name : option string)
         (num_rows num_cols : option Z) (h : heap),
    let with_flag := plot_missing get_type vis0 vis1 vis2 show
                       p x_name y_name num_rows num_cols true h in
    let without := plot_missing get_type vis0 vis1 vis2 show
                     p x_name y_name num_rows num_cols false h in
    snd with_flag = snd without /\
    omap figure_of (fst with_flag) = omap figure_of (fst without) /\
    (forall r, fst without = Ok r -> intermediate_of r = None) /\
    (forall r, fst with_flag = Ok r ->
               exists im, intermediate_of r = Some im).
Proof.
  intros Figure get_type vis0 vis1 vis2 show p x_name y_name
         num_rows num_cols h.
  cbv zeta. unfold plot_missing.
  set (P := fun r1 r0 : outcome (returned Figure) * heap =>
              snd r1 = snd r0 /\
              omap figure_of (fst r1) = omap figure_of (fst r0) /\
              (forall r, fst r0 = Ok r -> intermediate_of r = None) /\
              (forall r, fst r1 = Ok r ->
                         exists im, intermediate_of r = Some im)).
  assert (Hraise : forall e h', P (Raise e, h') (Raise e, h')).
  { intros e h'. unfold P. cbn [fst snd omap].
    repeat split; intros r Hr; discriminate Hr. }
  match goal with
  | |- snd ?r1 = snd ?r0 /\ _ => change (P r1 r0)
  end.
  apply bind_related; [exact Hraise|]. intros columns_name h1.
  apply bind_related; [exact Hraise|]. intros names h2.
  apply bind_related; [exact Hraise|]. intros _ h3.
  apply bind_related; [exact Hraise|]. intros [fig im] h4.
  apply bind_related; [exact Hraise|]. intros _ h5.
  unfold P, ret. cbn [fst snd omap figure_of].
  repeat split.
  - intros r Hr. injection Hr as <-. reflexivity.
  - intros r Hr. injection Hr as <-. now exists im.
Qed.

Lemma gate_open_iff
  (get_type : selection -> DataType) (df : DataFrame) :
  existsb (unsupported_column get_type df) (columns df) = false
  <-> (forall name, In name (columns df) ->
                    supported (classified get_type df name)).
Proof.
  split; [|apply gate_open].
  intros Hopen name Hin.
  destruct (getitem_of_column df name Hin) as [column Hc].
  assert (Hbad : unsupported_column get_type df name = false).
  { destruct (unsupported_column get_type df name) eqn:E; [|reflexivity].
    assert (existsb (unsupported_column get_type df) (columns df) = true)
      by (apply existsb_exists; eauto).
    congruence. }
  unfold unsupported_column in Hbad. unfold supported, classified.
  rewrite Hc in *. apply andb_false_iff in Hbad.
  destruct Hbad as [Hb | Hb];
    [left | right];
    (destruct (get_type column) as [| |n]; simpl in Hb;
     first [reflexivity | discriminate]).
Qed.

(** X16.  A call of [plot_missing] that returns has gone through the type
    gate and through the analyzer of its branch: every column of the table
    classifies as [TYPE_NUM] or [TYPE_CAT]; [x_name], [y_name] are not
    (absent, given); the analyzer that the dispatch table assigns to
    [(x_name, y_name)], run with the caller's table (and caps) right after
    the list of column names was made, returned an intermediate result; and
    that intermediate result is the one handed back when
    [return_intermediate] is set. *)
Theorem dispatcher_returns_result_of_selected_analyzer :
  forall (Figure : Type) (get_type : selection -> DataType)
         (vis0 vis1 vis2 : Intermediate -> dict -> M Figure)
         (show : Figure -> M unit)
         (h h' : heap) (p : loc) (df : DataFrame)
         (x_name y_name : option string) (num_rows num_cols : option Z)
         (return_intermediate : bool) (r : returned Figure),
    nth_error h p = Some (ODataFrame df) ->
    plot_missing get_type vis0 vis1 vis2 show
      p x_name y_name num_rows num_cols return_intermediate h
    = (Ok r, h') ->
    (forall name, In name (columns df) ->
                  supported (classified get_type df name)) /\
    exists analyzer im h1,
      selected_analyzer p x_name y_name num_rows num_cols = Some analyzer /\
      analyzer (h ++ [OList (columns df)]) = (Ok im, h1) /\
      intermediate_of r = (if return_intermediate then Some im else None).
Proof.
  intros Figure get_type vis0 vis1 vis2 show h h' p df x_name y_name
         num_rows num_cols return_intermediate r Hp H.
  rewrite (plot_missing_gate Figure get_type vis0 vis1 vis2 show
             h p df x_name y_name num_rows num_cols return_intermediate Hp)
    in H.
  destruct (existsb (unsupported_column get_type df) (columns df)) eqn:Egate;
    [discriminate H|].
  split; [now apply gate_open_iff|].
  bind_inv H. destruct a as [fig im]. bind_inv H.
  assert (Hr : intermediate_of r
               = if return_intermediate then Some im else None).
  { destruct return_intermediate; unfold ret in H; injection H as <- _;
      reflexivity. }
  destruct x_name as [x|], y_name as [y|]; cbn [selected_analyzer].
  - do 2 bind_inv Hm. unfold ret in Hm. injection Hm as _ <- _.
    eauto 6.
  - do 2 bind_inv Hm. unfold ret in Hm. injection Hm as _ <- _.
    eauto 6.
  - discriminate Hm.
  - do 2 bind_inv Hm. unfold ret in Hm. injection Hm as _ <- _.
    eauto 6.
Qed.

Lemma dispatcher_returns_result_of_selected_analyzer_witness :
  exists analyzer im h1,
    selected_analyzer 0 (Some "A"%string) None None None = Some analyzer /\
    analyzer ([ODataFrame table_AB] ++ [OList (columns table_AB)])
    = (Ok im, h1) /\
    intermediate_of
      (RPair tt
         {| result := impact_result 2 3;
            raw_data := [("df"%string, PRef 0); ("x_name"%string, PStr "A");
                         ("num_bins"%string, PInt 10)];
            visual_type := "dummy" |})
    = Some im.
Proof.
  apply (dispatcher_returns_result_of_selected_analyzer
           unit sample_get_type sample_vis sample_vis sample_vis sample_show
           [ODataFrame table_AB] _ 0 table_AB (Some "A"%string) None
           None None true _ eq_refl eq_refl).
Defined.

(** X17.  Analyzer errors reach the caller unchanged, and nothing is
    rendered.  For a table whose columns all classify as [TYPE_NUM] or
    [TYPE_CAT]: when the analyzer that the dispatch table assigns to
    [(x_name, y_name)] raises (an unknown label, or the division by zero of
    the global analyzer), [plot_missing] raises the same exception with the
    heap as the analyzer left it, whatever the rendering routines, [show]
    and [return_intermediate] are. *)
Theorem dispatcher_propagates_analyzer_errors :
  forall (Figure : Type) (get_type : selection -> DataType)
         (vis0 vis1 vis2 : Intermediate -> dict -> M Figure)
         (show : Figure -> M unit)
         (h h1 : heap) (p : loc) (df : DataFrame)
         (x_name y_name : option string) (num_rows num_cols : option Z)
         (return_intermediate : bool)
         (analyzer : M Intermediate) (e : exn),
    nth_error h p = Some (ODataFrame df) ->
    (forall name, In name (columns df) ->
                  supported (classified get_type df name)) ->
    selected_analyzer p x_name y_name num_rows num_cols = Some analyzer ->
    analyzer (h ++ [OList (columns df)]) = (Raise e, h1) ->
    plot_missing get_type vis0 vis1 vis2 show
      p x_name y_name num_rows num_cols return_intermediate h
    = (Raise e, h1).
Proof.
  intros Figure get_type vis0 vis1 vis2 show h h1 p df x_name y_name
         num_rows num_cols return_intermediate analyzer e
         Hp Hall Hsel Hfail.
  rewrite (plot_missing_gate Figure get_type vis0 vis1 vis2 show
             h p df x_name y_name num_rows num_cols return_intermediate Hp).
  rewrite (gate_open get_type df Hall).
  destruct x_name as [x|], y_name as [y|]; cbn [selected_analyzer] in Hsel;
    try discriminate Hsel; injection Hsel as <-;
    unfold bind; rewrite Hfail; reflexivity.
Qed.

Lemma dispatcher_propagates_analyzer_errors_witness :
  sample_plot_missing 0 (Some "Z"%string) None None None true
    [ODataFrame table_AB]
  = (Raise (KeyError ["Z"%string]),
     [ODataFrame table_AB; OList (columns table_AB)]) /\
  sample_plot_missing 0 None None None None false
    [ODataFrame table_A_empty]
  = (Raise ZeroDivisionError,
     [ODataFrame table_A_empty; OList (columns table_A_empty)]).
Proof.
  split.
  - apply (dispatcher_propagates_analyzer_errors
             unit sample_get_type sample_vis sample_vis sample_vis sample_show
             [ODataFrame table_AB] _ 0 table_AB (Some "Z"%string) None
             None None true
             (_calc_missing_impact 0 "Z" num_bins_default)
             (KeyError ["Z"%string]) eq_refl).
    + intros name [<- | [<- | []]]; unfold supported; simpl; auto.
    + reflexivity.
    + reflexivity.
  - apply (dispatcher_propagates_analyzer_errors
             unit sample_get_type sample_vis sample_vis sample_vis sample_show
             [ODataFrame table_A_empty] _ 0 table_A_empty None None
             None None false
             (_calc_nonzero_count 0 None None) ZeroDivisionError eq_refl).
    + intros name [<- | []]; unfold supported; simpl; auto.
    + reflexivity.
    + reflexivity.
Defined.

Lemma missing_column_of_pattern (df : DataFrame) (c : nat) :
  map (fun r => isnull (nth c (snd r) VNone)) (rows df)
  = map (fun bs => nth c bs true)
        (map (fun r => map isnull (snd r)) (rows df)).
Proof.
  rewrite map_map. apply map_ext. intros r.
  change true with (isnull VNone). now rewrite map_nth.
Qed.

(** X18.  The global analyzer looks at nothing but which cells are missing.
    Two tables with the same number of columns and the same pattern of
    missing cells, row by row, get the same [count] and the same
    [distribution] (or the same failure) from [_calc_nonzero_count]: column
    labels, row labels and the values of the present cells play no part. *)
Theorem nonzero_count_depends_on_missing_pattern_only :
  forall (h1 h2 : heap) (p1 p2 : loc) (df1 df2 : DataFrame)
         (num_rows num_cols : option Z),
    nth_error h1 p1 = Some (ODataFrame df1) ->
    nth_error h2 p2 = Some (ODataFrame df2) ->
    length (columns df1) = length (columns df2) ->
    map (fun r => map isnull (snd r)) (rows df1)
    = map (fun r => map isnull (snd r)) (rows df2) ->
    rates_of (_calc_nonzero_count p1 num_rows num_cols h1)
    = rates_of (_calc_nonzero_count p2 num_rows num_cols h2) /\
    matrix_of (_calc_nonzero_count p1 num_rows num_cols h1)
    = matrix_of (_calc_nonzero_count p2 num_rows num_cols h2).
Proof.
  intros h1 h2 p1 p2 df1 df2 num_rows num_cols Hp1 Hp2 Hcols Hpat.
  assert (Hlen : length (rows df1) = length (rows df2)).
  { apply (f_equal (@length _)) in Hpat. now rewrite !length_map in Hpat. }
  assert (Hcol : forall c,
             map (fun r => isnull (nth c (snd r) VNone)) (rows df1)
             = map (fun r => isnull (nth c (snd r) VNone)) (rows df2)).
  { intros c. now rewrite !missing_column_of_pattern, Hpat. }
  assert (Hpres : presence df1 = presence df2).
  { assert (Hd : data (presence df1) = data (presence df2)).
    { rewrite !presence_data, Hcols. apply map_ext. exact Hcol. }
    assert (Hs : shape (presence df1) = shape (presence df2))
      by (rewrite !presence_shape; congruence).
    destruct (presence df1), (presence df2). cbn [shape data] in *.
    congruence. }
  assert (Hrates : column_missing_rates df1 = column_missing_rates df2).
  { unfold column_missing_rates. rewrite Hcols, Hlen.
    apply map_ext. intros c. unfold missing_in_column.
    now rewrite <- !count_nonzero_map, (Hcol c). }
  unfold rates_of, matrix_of.
  rewrite (calc_nonzero_count_run h1 p1 df1 num_rows num_cols Hp1),
          (calc_nonzero_count_run h2 p2 df2 num_rows num_cols Hp2).
  rewrite Hpres, Hrates. cbn [fst].
  generalize (column_missing_rates df2). intros rates.
  destruct (rows df1), (rows df2); try discriminate Hlen;
    destruct (columns df1), (columns df2); try discriminate Hcols;
    split; reflexivity.
Qed.

Lemma nonzero_count_depends_on_missing_pattern_only_witness :
  rates_of (_calc_nonzero_count 0 None None [ODataFrame table_AB])
  = rates_of (_calc_nonzero_count 0 None None [ODataFrame table_uv]) /\
  matrix_of (_calc_nonzero_count 0 None None [ODataFrame table_AB])
  = matrix_of (_calc_nonzero_count 0 None None [ODataFrame table_uv]).
Proof.
  apply (nonzero_count_depends_on_missing_pattern_only
           [ODataFrame table_AB] [ODataFrame table_uv] 0 0
           table_AB table_uv None None eq_refl eq_refl); reflexivity.
Defined.

(* ================================================================== *)
(** * The single-column impact analyzer on every table                  *)
(* ================================================================== *)

Lemma locs_from_complete (k : nat) (cols : list string) (key : string)
  (j : nat) :
  nth_error cols j = Some key -> In (k + j) (locs_from k cols key).
Proof.
  revert k j. induction cols as [|c cs IH]; intros k j Hj.
  - destruct j; discriminate Hj.
  - cbn [locs_from]. destruct j as [|j].
    + injection Hj as ->. rewrite String.eqb_refl, Nat.add_0_r. now left.
    + cbn [nth_error] in Hj. specialize (IH (S k) j Hj).
      replace (k + S j) with (S k + j) by lia.
      destruct (String.eqb c key); [now right | assumption].
Qed.

(** A row passes [dropna(subset=[x])] exactly when its cell is present under
    every column that carries the label [x]. *)
Lemma row_complete_iff (cols : list string) (x : string)
  (r : Z * list value) :
  row_complete (get_locs cols x) r = true
  <-> (forall j, nth_error cols j = Some x ->
                 isnull (nth j (snd r) VNone) = false).
Proof.
  unfold row_complete, take_cells, notnull. rewrite forallb_forall. split.
  - intros H j Hj. apply negb_true_iff. apply H. apply in_map_iff.
    exists j. split; [reflexivity|].
    apply (locs_from_complete 0 cols x j Hj).
  - intros H v Hv. apply in_map_iff in Hv. destruct Hv as [j [<- Hj]].
    apply negb_true_iff. apply H.
    destruct (locs_from_label 0 cols x j Hj) as [_ Hnth].
    now rewrite Nat.sub_0_r in Hnth.
Qed.

Lemma remove_first_others (x : string) (cols : list string) :
  filter (fun c => negb (String.eqb c x)) (remove_first x cols)
  = filter (fun c => negb (String.eqb c x)) cols.
Proof.
  induction cols as [|c cs IH]; [reflexivity|].
  cbn [remove_first filter]. destruct (String.eqb c x) eqn:E.
  - reflexivity.
  - cbn [filter]. rewrite E. cbn [negb]. now rewrite IH.
Qed.

Lemma rows_present_have_x (df : DataFrame) (x : string) :
  In x (columns df) ->
  Forall (present_in {| columns := columns df; rows := rows_present df x |} x)
         (rows_present df x).
Proof.
  intros Hin. apply Forall_forall. intros r Hr.
  unfold rows_present in Hr. apply filter_In in Hr. destruct Hr as [_ Hr].
  unfold present_in, present_inb, lookup_cell. cbn [columns].
  pose proof (get_locs_In (columns df) x Hin) as Hne.
  destruct (get_locs (columns df) x) as [|j js]; [congruence|].
  unfold row_complete, take_cells in Hr. cbn [map forallb] in Hr.
  apply andb_true_iff in Hr. destruct Hr as [Hj _].
  destruct (nth_error (snd r) j) as [v|] eqn:E.
  - now rewrite (nth_error_nth _ _ _ E) in Hj.
  - apply nth_error_None in E. rewrite nth_overflow in Hj by assumption.
    discriminate Hj.
Qed.

(** On the table whose label A is carried by two columns, with x = A, the
    name list of [_calc_missing_impact] has length C - 1 but still holds A:
    [remove] took out one occurrence only, so the list does not exclude the
    designated label and is not the list of the columns other than A. *)
Lemma single_column_impact_duplicate_label_stays :
  exists im h' l_names names,
    _calc_missing_impact 0 "A" num_bins_default [ODataFrame table_AAB]
    = (Ok im, h') /\
    ref_of (result im) "columns_name" = Some l_names /\
    list_at h' l_names = Some names /\
    names = ["A"; "B"]%string /\
    length names = length (columns table_AAB) - 1 /\
    In "A"%string names /\
    names <> filter (fun c => negb (String.eqb c "A")) (columns table_AAB).
Proof.
  do 4 eexists. split; [reflexivity|].
  split; [reflexivity|]. split; [reflexivity|]. split; [reflexivity|].
  split; [reflexivity|]. split; [simpl; auto | discriminate].
Qed.

(** C7, as the code has it.  For every table stored on the heap and every
    label [x] of one of its columns, [_calc_missing_impact] returns an
    intermediate result whose [df_data_drop] is a new frame with the columns
    of the table and exactly the rows whose cell is present under every
    column labelled [x], so that every returned row has a present value
    under [x]; and whose [columns_name] is a new list of length C - 1: the
    column list of the table with the first occurrence of [x] taken out, the
    other labels in their order in the table.  The list excludes [x] exactly
    when [x] labels one column only; in particular, when the labels of the
    table are unique, it does not contain [x] and is the list of the
    remaining columns in their original order. *)
Theorem single_column_impact_on_every_table :
  forall (h : heap) (p : loc) (df : DataFrame) (x : string) (num_bins : Z),
    nth_error h p = Some (ODataFrame df) ->
    In x (columns df) ->
    exists im h' l_frame l_names filtered names,
      _calc_missing_impact p x num_bins h = (Ok im, h') /\
      ref_of (result im) "df_data_drop" = Some l_frame /\
      ref_of (result im) "columns_name" = Some l_names /\
      frame_at h' l_frame = Some filtered /\
      list_at h' l_names = Some names /\
      columns filtered = columns df /\
      (forall r,
          In r (rows filtered) <->
          In r (rows df) /\
          forall j, nth_error (columns df) j = Some x ->
                    isnull (nth j (snd r) VNone) = false) /\
      index filtered
      = map fst (filter (row_complete (get_locs (columns df) x)) (rows df)) /\
      Forall (present_in filtered x) (rows filtered) /\
      length names = length (columns df) - 1 /\
      names = remove_first x (columns df) /\
      filter (fun c => negb (String.eqb c x)) names
      = filter (fun c => negb (String.eqb c x)) (columns df) /\
      (~ In x names <-> count_occ string_dec (columns df) x = 1) /\
      (NoDup (columns df) ->
       rows filtered = filter (present_inb df x) (rows df) /\
       ~ In x names /\
       names = filter (fun c => negb (String.eqb c x)) (columns df)).
Proof.
  intros h p df x num_bins Hp Hin.
  destruct (calc_missing_impact_frames h p df x num_bins Hp Hin)
    as [im [h' [Hrun [_ [Href1 [Href2 [Hframe Hlist]]]]]]].
  exists im, h', (length h), (S (length h)). do 2 eexists.
  split; [exact Hrun|]. split; [exact Href1|]. split; [exact Href2|].
  split; [exact Hframe|]. split; [exact Hlist|].
  split; [reflexivity|]. cbn [rows].
  split.
  { intros r. unfold rows_present. rewrite filter_In, row_complete_iff.
    reflexivity. }
  split; [reflexivity|].
  split; [now apply rows_present_have_x|].
  split; [now apply remove_first_length|].
  split; [reflexivity|].
  split; [apply remove_first_others|].
  assert (Hcount : count_occ string_dec (remove_first x (columns df)) x
                   = count_occ string_dec (columns df) x - 1).
  { rewrite remove_first_count_occ by assumption.
    destruct (string_dec x x); [reflexivity | congruence]. }
  split.
  { pose proof (proj1 (count_occ_In string_dec (columns df) x) Hin) as Hpos.
    rewrite (count_occ_not_In string_dec), Hcount. lia. }
  intros Hnd.
  split; [now apply rows_present_filter|].
  rewrite remove_first_filter by assumption. split; [|reflexivity].
  intros Hc. apply filter_In in Hc. destruct Hc as [_ Hc].
  now rewrite String.eqb_refl in Hc.
Qed.

Lemma single_column_impact_on_every_table_witness :
  (exists im h' l_frame l_names filtered names,
      _calc_missing_impact 0 "A" 10 [ODataFrame table_AAB] = (Ok im, h') /\
      ref_of (result im) "df_data_drop" = Some l_frame /\
      ref_of (result im) "columns_name" = Some l_names /\
      frame_at h' l_frame = Some filtered /\
      list_at h' l_names = Some names /\
      columns filtered = columns table_AAB /\
      index filtered = [1%Z] /\
      Forall (present_in filtered "A") (rows filtered) /\
      length names = length (columns table_AAB) - 1 /\
      names = ["A"; "B"]%string) /\
  (exists im h' l_frame l_names filtered names,
      _calc_missing_impact 0 "A" 10 [ODataFrame table_AB] = (Ok im, h') /\
      ref_of (result im) "df_data_drop" = Some l_frame /\
      ref_of (result im) "columns_name" = Some l_names /\
      frame_at h' l_frame = Some filtered /\
      list_at h' l_names = Some names /\
      rows filtered = filter (present_inb table_AB "A") (rows table_AB) /\
      ~ In "A"%string names /\
      names = filter (fun c => negb (String.eqb c "A")) (columns table_AB)).
Proof.
  split.
  - destruct (single_column_impact_on_every_table
                [ODataFrame table_AAB] 0 table_AAB "A" 10 eq_refl)
      as [im [h' [lf [ln [f [names
          [H1 [H2 [H3 [H4 [H5 [H6 [_ [H8 [H9 [H10 [H11 _]]]]]]]]]]]]]]]]];
      [simpl; auto|].
    exists im, h', lf, ln, f, names.
    repeat (split; [assumption|]). exact H11.
  - destruct (single_column_impact_on_every_table
                [ODataFrame table_AB] 0 table_AB "A" 10 eq_refl)
      as [im [h' [lf [ln [f [names
          [H1 [H2 [H3 [H4 [H5 [_ [_ [_ [_ [_ [_ [_ [_ H14]]]]]]]]]]]]]]]]]]];
      [simpl; auto|].
    destruct H14 as [Hrows [Hnot Hnames]];
      [simpl; repeat constructor; simpl; intuition discriminate|].
    exists im, h', lf, ln, f, names.
    repeat (split; [assumption|]). exact Hnames.
Defined.
